(** * Grocery cart: name normalisation, cart endpoints and smart matching

    A shallow embedding of [dummy_frontend_api.py] (the in-memory cart and
    its four HTTP endpoints) and of [voice_agent_working.py] (the client
    functions [grocery_api_add_item] and [grocery_api_remove_item], and the
    two agent tools that validate their arguments before calling them).

    Modelling choices.
    - A Python [str] is a [string] whose characters are the code points
      U+0000..U+00FF; [lower()] and [strip()] are the Unicode operations
      restricted to that range, where [lower()] acts character by
      character (beyond it [lower()] depends on context, as for the Greek
      final sigma, and is not modelled).
    - A Python [int] is a [Z].
    - The module-level dict [cart_storage] is an association list in
      insertion order (a Python dict iterates in insertion order, an
      assignment to an existing key keeps its position, [del] removes the
      binding).  Every endpoint takes the store and returns the new store.
    - An endpoint either returns a response body (status 200) or raises
      [HTTPException] with a status and a detail.
    - The transport between client and endpoints is reliable: the
      [except Exception] branches of the client, reached only on a network
      failure, are not modelled. *)

From Stdlib Require Import List String Ascii ZArith NArith Bool Lia DecimalString.
From Stdlib Require DecimalPos DecimalZ.
Import ListNotations.
Local Open Scope string_scope.
Local Open Scope Z_scope.

(** ** Python string operations *)

Module PyStr.

(** [c.isspace()]: the white-space code points below U+0100. *)
Definition isspace (c : ascii) : bool :=
  let n := N_of_ascii c in
  (((9 <=? n) && (n <=? 13)) || ((28 <=? n) && (n <=? 32))
   || (n =? 133) || (n =? 160))%N.

(** [c.lower()]: A-Z, and the upper-case letters of U+00C0..U+00DE
    (U+00D7, the multiplication sign, has no case). *)
Definition lower_char (c : ascii) : ascii :=
  let n := N_of_ascii c in
  if (((65 <=? n) && (n <=? 90))
      || ((192 <=? n) && (n <=? 222) && negb (n =? 215)))%N
  then ascii_of_N (n + 32) else c.

(** [s.lower()] *)
Fixpoint lower (s : string) : string :=
  match s with
  | EmptyString => EmptyString
  | String c s' => String (lower_char c) (lower s')
  end.

(** [s.lstrip(chars)], the set of characters given as a predicate. *)
Fixpoint lstrip_by (p : ascii -> bool) (s : string) : string :=
  match s with
  | EmptyString => EmptyString
  | String c s' => if p c then lstrip_by p s' else s
  end.

(** [s.rstrip(chars)] *)
Fixpoint rstrip_by (p : ascii -> bool) (s : string) : string :=
  match s with
  | EmptyString => EmptyString
  | String c s' =>
      match rstrip_by p s' with
      | EmptyString => if p c then EmptyString else String c EmptyString
      | r => String c r
      end
  end.

(** [s.strip()] *)
Definition strip (s : string) : string :=
  rstrip_by isspace (lstrip_by isspace s).

Definition is_s (c : ascii) : bool := Ascii.eqb c "s".

(** [s.rstrip("s")] *)
Definition rstrip_s (s : string) : string := rstrip_by is_s s.

(** [s.endswith(suffix)]: some tail of [s] is [suffix]. *)
Fixpoint endswith (s suffix : string) : bool :=
  String.eqb s suffix
  || match s with
     | EmptyString => false
     | String _ s' => endswith s' suffix
     end.

(** [len(s)] *)
Definition len (s : string) : Z := Z.of_nat (String.length s).

(** A string that does not begin with a character of [p]. *)
Definition clean_start (p : ascii -> bool) (s : string) : Prop :=
  match s with
  | EmptyString => True
  | String c _ => p c = false
  end.

(** [str(n)] for an [int], as f-strings format it. *)
Definition str_of_int (n : Z) : string :=
  NilZero.string_of_int (Z.to_int n).

End PyStr.

(** ** A Python [dict] from [str] to [int], in insertion order *)

Module Dict.

Definition t : Type := list (string * Z).

(** [d.get(k)] *)
Fixpoint get (k : string) (d : t) : option Z :=
  match d with
  | [] => None
  | (k', v) :: d' => if String.eqb k k' then Some v else get k d'
  end.

(** [k in d] *)
Definition mem (k : string) (d : t) : bool :=
  match get k d with Some _ => true | None => false end.

(** [d[k] = v]: an existing key keeps its place, a new key goes last. *)
Fixpoint set (k : string) (v : Z) (d : t) : t :=
  match d with
  | [] => [(k, v)]
  | (k', v') :: d' =>
      if String.eqb k k' then (k', v) :: d' else (k', v') :: set k v d'
  end.

(** [del d[k]] *)
Fixpoint del (k : string) (d : t) : t :=
  match d with
  | [] => []
  | (k', v') :: d' =>
      if String.eqb k k' then del k d' else (k', v') :: del k d'
  end.

(** [list(d.keys())] *)
Definition keys (d : t) : list string := map fst d.

(** [sum(d.values())] *)
Definition sum_values (d : t) : Z := fold_right Z.add 0 (map snd d).

(** [len(d)] *)
Definition len (d : t) : Z := Z.of_nat (List.length d).

(** [d[k]] where the key is known to be present, 0 standing for absence
    when a quantity is read off a cart. *)
Definition quantity_of (k : string) (d : t) : Z :=
  match get k d with Some v => v | None => 0 end.

End Dict.

(** ** [dummy_frontend_api.py]: the cart and its endpoints *)

Module Frontend.

Record CartItemRequest : Type := mkRequest {
  item_name : string;
  quantity : Z;
  action : string
}.

(** One [{"item": ..., "quantity": ...}] entry of a snapshot. *)
Record CartEntry : Type := mkEntry {
  item : string;
  entry_quantity : Z
}.

Record CartResponse : Type := mkResponse {
  success : bool;
  message : string;
  cart_items : list CartEntry;
  total_items : Z
}.

(** What a route handler produces: a body with status 200, or an
    [HTTPException]. *)
Inductive http_result : Type :=
| Ok200 (body : CartResponse)
| HttpError (status_code : Z) (detail : string).

(** [[{"item": item, "quantity": qty} for item, qty in cart_storage.items()]] *)
Definition snapshot (cart_storage : Dict.t) : list CartEntry :=
  map (fun '(item, qty) => mkEntry item qty) cart_storage.

(** POST /api/cart/add *)
Definition add_to_cart (cart_storage : Dict.t) (request : CartItemRequest)
  : http_result * Dict.t :=
  if quantity request <=? 0
  then (HttpError 400 "Quantity must be positive", cart_storage)
  else
    let item_name' := PyStr.strip (PyStr.lower (item_name request)) in
    let cart_storage' :=
      match Dict.get item_name' cart_storage with
      | Some old => Dict.set item_name' (old + quantity request) cart_storage
      | None => Dict.set item_name' (quantity request) cart_storage
      end in
    (Ok200 (mkResponse true
              ("Successfully added " ++ PyStr.str_of_int (quantity request)
               ++ " " ++ item_name request ++ " to cart")
              (snapshot cart_storage')
              (Dict.sum_values cart_storage')),
     cart_storage').

(** POST /api/cart/remove *)
Definition remove_from_cart (cart_storage : Dict.t) (request : CartItemRequest)
  : http_result * Dict.t :=
  if quantity request <=? 0
  then (HttpError 400 "Quantity must be positive", cart_storage)
  else
    let item_name' := PyStr.strip (PyStr.lower (item_name request)) in
    match Dict.get item_name' cart_storage with
    | None =>
        (Ok200 (mkResponse false
                  (item_name request ++ " is not in your cart")
                  (snapshot cart_storage)
                  (Dict.sum_values cart_storage)),
         cart_storage)
    | Some stored =>
        let '(message, cart_storage') :=
          if stored <=? quantity request
          then
            let removed_qty := stored in
            ("Removed all " ++ PyStr.str_of_int removed_qty ++ " "
             ++ item_name request ++ " from cart",
             Dict.del item_name' cart_storage)
          else
            ("Removed " ++ PyStr.str_of_int (quantity request) ++ " "
             ++ item_name request ++ " from cart",
             Dict.set item_name' (stored - quantity request) cart_storage) in
        (Ok200 (mkResponse true message
                  (snapshot cart_storage')
                  (Dict.sum_values cart_storage')),
         cart_storage')
    end.

(** GET /api/cart/view *)
Definition view_cart (cart_storage : Dict.t) : http_result * Dict.t :=
  let cart_items := snapshot cart_storage in
  let total_items := Dict.sum_values cart_storage in
  (Ok200 (mkResponse true
            ("Cart contains " ++ PyStr.str_of_int total_items ++ " items")
            cart_items total_items),
   cart_storage).

(** DELETE /api/cart/clear *)
Definition clear_cart (cart_storage : Dict.t) : http_result * Dict.t :=
  let items_cleared := Dict.len cart_storage in
  (Ok200 (mkResponse true
            ("Cart cleared successfully. Removed "
             ++ PyStr.str_of_int items_cleared ++ " item types.")
            [] 0),
   []).

(** One request to the server, and the store it leaves behind. *)
Inductive call : Type :=
| CallAdd (request : CartItemRequest)
| CallRemove (request : CartItemRequest)
| CallView
| CallClear.

Definition serve (cart_storage : Dict.t) (c : call) : http_result * Dict.t :=
  match c with
  | CallAdd request => add_to_cart cart_storage request
  | CallRemove request => remove_from_cart cart_storage request
  | CallView => view_cart cart_storage
  | CallClear => clear_cart cart_storage
  end.

(** The store after a sequence of requests. *)
Definition run (cart_storage : Dict.t) (cs : list call) : Dict.t :=
  fold_left (fun st c => snd (serve st c)) cs cart_storage.

(** [cart_storage] as the module creates it. *)
Definition initial_cart : Dict.t := [].

(** A key that is its own [lower().strip()]. *)
Definition canonical (k : string) : Prop :=
  PyStr.strip (PyStr.lower k) = k.

Definition canonical_keys (cart_storage : Dict.t) : Prop :=
  Forall canonical (Dict.keys cart_storage).

(** The two outcomes of lines 103-111, named for the statements below:
    the store after a removal of [q] from a key holding [stored], and the
    message that goes with it. *)
Definition after_removal (key : string) (stored q : Z) (cart : Dict.t) : Dict.t :=
  if stored <=? q then Dict.del key cart else Dict.set key (stored - q) cart.

Definition removal_message (name : string) (stored q : Z) : string :=
  if stored <=? q
  then "Removed all " ++ PyStr.str_of_int stored ++ " " ++ name ++ " from cart"
  else "Removed " ++ PyStr.str_of_int q ++ " " ++ name ++ " from cart".

End Frontend.

(** ** [voice_agent_working.py]: the client of the endpoints *)

Module VoiceAgent.
Import Frontend.

(** What the client functions return: the decoded response body, or the
    two-field failure dict built from a non-200 status. *)
Inductive api_result : Type :=
| ApiJson (body : CartResponse)
| ApiFailure (message : string).

(** [result["success"]] *)
Definition result_success (r : api_result) : bool :=
  match r with
  | ApiJson body => success body
  | ApiFailure _ => false
  end.

(** The name normaliser of [grocery_api_add_item] (lines 36-43). *)
Definition normalized_name (item_name : string) : string :=
  PyStr.strip (PyStr.lower item_name).

Definition final_name (item_name : string) : string :=
  let normalized_name := normalized_name item_name in
  if PyStr.endswith normalized_name "s" && (1 <? PyStr.len normalized_name)
  then normalized_name
  else if negb (PyStr.endswith normalized_name "s")
       then normalized_name ++ "s"
       else normalized_name.

Definition grocery_api_add_item (cart_storage : Dict.t)
    (item_name : string) (quantity : Z) : api_result * Dict.t :=
  let final_name := final_name item_name in
  match add_to_cart cart_storage (mkRequest final_name quantity "add") with
  | (Ok200 result, st) => (ApiJson result, st)
  | (HttpError status_code _, st) =>
      (ApiFailure ("Failed to add " ++ item_name ++ " to cart. Status: "
                   ++ PyStr.str_of_int status_code), st)
  end.

(** The four matching patterns of the smart-matching loop (lines 112-115). *)
Definition matches (item_lower cart_item_name : string) : bool :=
  String.eqb item_lower cart_item_name
  || String.eqb (item_lower ++ "s") cart_item_name
  || String.eqb item_lower (cart_item_name ++ "s")
  || String.eqb (PyStr.rstrip_s item_lower) (PyStr.rstrip_s cart_item_name).

(** The [for cart_item in cart_items] loop (lines 108-132): [Some] is the
    [return retry_result] inside the loop, [None] is falling out of it. *)
Fixpoint smart_matching (cart_storage : Dict.t) (cart_items : list CartEntry)
    (item_lower : string) (quantity : Z) : option api_result * Dict.t :=
  match cart_items with
  | [] => (None, cart_storage)
  | cart_item :: rest =>
      let cart_item_name := PyStr.strip (PyStr.lower (item cart_item)) in
      if matches item_lower cart_item_name
      then
        match remove_from_cart cart_storage
                (mkRequest (item cart_item) quantity "remove") with
        | (Ok200 retry_result, st) => (Some (ApiJson retry_result), st)
        | (HttpError _ _, st) => smart_matching st rest item_lower quantity
        end
      else smart_matching cart_storage rest item_lower quantity
  end.

Definition grocery_api_remove_item (cart_storage : Dict.t)
    (item_name : string) (quantity : Z) : api_result * Dict.t :=
  match remove_from_cart cart_storage (mkRequest item_name quantity "remove") with
  | (Ok200 result, st) =>
      if success result
      then (ApiJson result, st)
      else
        match view_cart st with
        | (Ok200 cart_data, st') =>
            let item_lower := PyStr.strip (PyStr.lower item_name) in
            match smart_matching st' (cart_items cart_data) item_lower quantity with
            | (Some retry_result, st'') => (retry_result, st'')
            | (None, st'') => (ApiJson result, st'')
            end
        | (HttpError _ _, st') => (ApiJson result, st')
        end
  | (HttpError status_code _, st) =>
      (ApiFailure ("Failed to remove " ++ item_name ++ " from cart. Status: "
                   ++ PyStr.str_of_int status_code), st)
  end.

(** *** The tools of [GroceryAgent] *)

Record CartItem : Type := mkCartItem {
  ci_quantity : Z;
  ci_item_name : string
}.

(** The manual validation of both tools (lines 198-203 and 230-235):
    [inl] carries the message of the [ValueError] raised. *)
Definition validate (quantity : Z) (item_name : string) : string + CartItem :=
  if quantity <? 1 then inl "Quantity must be positive"
  else if String.eqb item_name "" || (PyStr.len (PyStr.strip item_name) =? 0)
       then inl "Item name cannot be empty"
       else inr (mkCartItem quantity (PyStr.strip item_name)).

Definition error_response (e : string) : string :=
  "Sorry, there was an error processing your request: " ++ e.

Module GroceryAgent.

Definition add_to_cart (cart_storage : Dict.t) (quantity : Z)
    (item_name : string) : string * Dict.t :=
  match validate quantity item_name with
  | inl e => (error_response e, cart_storage)
  | inr cart_item =>
      let '(result, st) :=
        grocery_api_add_item cart_storage
          (ci_item_name cart_item) (ci_quantity cart_item) in
      if result_success result
      then ("Perfect! I've successfully added "
            ++ PyStr.str_of_int (ci_quantity cart_item) ++ " "
            ++ ci_item_name cart_item
            ++ " to your cart. Is there anything else you'd like to add?", st)
      else ("I'm sorry, I couldn't add " ++ ci_item_name cart_item
            ++ " to your cart. Please try again.", st)
  end.

Definition remove_from_cart (cart_storage : Dict.t) (quantity : Z)
    (item_name : string) : string * Dict.t :=
  match validate quantity item_name with
  | inl e => (error_response e, cart_storage)
  | inr cart_item =>
      let '(result, st) :=
        grocery_api_remove_item cart_storage
          (ci_item_name cart_item) (ci_quantity cart_item) in
      if result_success result
      then ("Done! I've successfully removed "
            ++ PyStr.str_of_int (ci_quantity cart_item) ++ " "
            ++ ci_item_name cart_item
            ++ " from your cart. Anything else you'd like me to help with?", st)
      else ("I'm sorry, I couldn't remove " ++ ci_item_name cart_item
            ++ " from your cart. Please try again.", st)
  end.

End GroceryAgent.

End VoiceAgent.

(** ** The operations as the specification words them *)

Module Spec.

(** The normaliser of section 4.1: lower-case the trimmed string, keep it
    when it ends in [s], otherwise append [s]. *)
Definition normalize (raw : string) : string :=
  let t := PyStr.lower (PyStr.strip raw) in
  if PyStr.endswith t "s" then t else t ++ "s".

(** Step 2 of [Remove] in section 4.2: the raw name looked up verbatim. *)
Definition verbatim_lookup (cart_storage : Dict.t) (rawName : string)
  : option Z :=
  Dict.get rawName cart_storage.

(** The equivalence rules (a)-(d) of step 3, on the lower-cased, trimmed
    raw name and a stored key. *)
Definition rule (rawName key : string) : Prop :=
  rawName = key
  \/ rawName ++ "s" = key
  \/ rawName = key ++ "s"
  \/ PyStr.rstrip_s rawName = PyStr.rstrip_s key.

End Spec.

(** ** Sessions: sequences of tool calls, and what a response carries *)

Module Session.
Import Frontend VoiceAgent.

(** Every stored quantity is at least 1. *)
Definition positive_quantities (cart_storage : Dict.t) : Prop :=
  Forall (fun kv : string * Z => 1 <= snd kv) cart_storage.

(** The sum of the quantities a response lists. *)
Definition total_of (items : list CartEntry) : Z :=
  fold_right Z.add 0 (map entry_quantity items).

(** The dict a snapshot was taken of, read back from its entries. *)
Definition restore (items : list CartEntry) : Dict.t :=
  map (fun e => (item e, entry_quantity e)) items.

(** One call of a tool of [GroceryAgent], and the store it leaves behind. *)
Inductive tool_call : Type :=
| ToolAdd (quantity : Z) (item_name : string)
| ToolRemove (quantity : Z) (item_name : string).

Definition tool_serve (cart_storage : Dict.t) (c : tool_call) : string * Dict.t :=
  match c with
  | ToolAdd quantity item_name =>
      GroceryAgent.add_to_cart cart_storage quantity item_name
  | ToolRemove quantity item_name =>
      GroceryAgent.remove_from_cart cart_storage quantity item_name
  end.

Definition tool_run (cart_storage : Dict.t) (cs : list tool_call) : Dict.t :=
  fold_left (fun st c => snd (tool_serve st c)) cs cart_storage.

End Session.

(** * Properties *)

(** ** Characters and strings *)

Section Characters.
Import PyStr.

Ltac by_cases_on c :=
  destruct c as [[] [] [] [] [] [] [] []]; vm_compute; reflexivity.

Lemma isspace_lower_char (c : ascii) : isspace (lower_char c) = isspace c.
Proof. by_cases_on c. Qed.

Lemma lower_char_idem (c : ascii) : lower_char (lower_char c) = lower_char c.
Proof. by_cases_on c. Qed.

End Characters.

Section Strings.
Import PyStr.

Lemma lower_idem (s : string) : lower (lower s) = lower s.
Proof.
  induction s as [|c s IH]; simpl; [reflexivity|].
  now rewrite lower_char_idem, IH.
Qed.

Lemma lower_app (a b : string) : lower (a ++ b) = lower a ++ lower b.
Proof. induction a as [|c a IH]; simpl; [reflexivity | now rewrite IH]. Qed.

Lemma lower_lstrip (s : string) :
  lower (lstrip_by isspace s) = lstrip_by isspace (lower s).
Proof.
  induction s as [|c s IH]; simpl; [reflexivity|].
  rewrite isspace_lower_char.
  destruct (isspace c); [exact IH | reflexivity].
Qed.

Lemma lower_rstrip (s : string) :
  lower (rstrip_by isspace s) = rstrip_by isspace (lower s).
Proof.
  induction s as [|c s IH]; simpl; [reflexivity|].
  rewrite <- IH, isspace_lower_char.
  destruct (rstrip_by isspace s) as [|d r]; simpl.
  - destruct (isspace c); reflexivity.
  - reflexivity.
Qed.

(** Lower-casing and trimming commute. *)
Lemma lower_strip (s : string) : lower (strip s) = strip (lower s).
Proof. unfold strip. now rewrite lower_rstrip, lower_lstrip. Qed.

Lemma lstrip_clean_start p s : clean_start p (lstrip_by p s).
Proof.
  induction s as [|c s IH]; simpl; [exact I|].
  destruct (p c) eqn:E; [exact IH | exact E].
Qed.

Lemma lstrip_of_clean_start p s : clean_start p s -> lstrip_by p s = s.
Proof. destruct s as [|c s]; simpl; [reflexivity|]. now intros ->. Qed.

Lemma rstrip_clean_start p s : clean_start p s -> clean_start p (rstrip_by p s).
Proof.
  destruct s as [|c s]; simpl; [exact (fun H => H)|].
  intros E. destruct (rstrip_by p s); [rewrite E|]; exact E.
Qed.

Lemma rstrip_idem p s : rstrip_by p (rstrip_by p s) = rstrip_by p s.
Proof.
  induction s as [|c s IH]; simpl; [reflexivity|].
  destruct (rstrip_by p s) as [|d r] eqn:E.
  - destruct (p c) eqn:Ec; simpl; [reflexivity | now rewrite Ec].
  - change (rstrip_by p (String c (String d r))) with
      (match rstrip_by p (String d r) with
       | EmptyString => if p c then EmptyString else String c EmptyString
       | String a b => String c (String a b)
       end).
    now rewrite IH.
Qed.

Lemma strip_clean_start s : clean_start isspace (strip s).
Proof. apply rstrip_clean_start, lstrip_clean_start. Qed.

Lemma strip_idem (s : string) : strip (strip s) = strip s.
Proof.
  unfold strip at 1.
  rewrite (lstrip_of_clean_start _ _ (strip_clean_start s)).
  apply rstrip_idem.
Qed.

Lemma rstrip_snoc p s c :
  p c = false -> rstrip_by p (s ++ String c "") = s ++ String c "".
Proof.
  intros Ec. induction s as [|d s IH]; simpl.
  - now rewrite Ec.
  - rewrite IH. destruct s; reflexivity.
Qed.

Lemma lstrip_app_clean p s t :
  clean_start p s -> clean_start p t -> lstrip_by p (s ++ t) = s ++ t.
Proof.
  destruct s as [|c s]; simpl.
  - intros _. apply lstrip_of_clean_start.
  - now intros ->.
Qed.

(** Appending [s] to a trimmed string gives a trimmed string. *)
Lemma strip_snoc_s (s : string) : strip (strip s ++ "s") = strip s ++ "s".
Proof.
  unfold strip at 1.
  rewrite lstrip_app_clean.
  - now apply rstrip_snoc.
  - apply strip_clean_start.
  - reflexivity.
Qed.

Lemma endswith_snoc (s : string) (c : ascii) :
  endswith (s ++ String c "") (String c "") = true.
Proof.
  induction s as [|d s IH]; simpl.
  - now rewrite Ascii.eqb_refl.
  - rewrite IH. apply orb_true_r.
Qed.

End Strings.

(** ** The name normaliser *)

Section Normaliser.
Import PyStr Frontend VoiceAgent.

(** The name the endpoints look up is a fixed point of the endpoints'
    own normalisation. *)
Lemma canonical_strip_lower (s : string) : canonical (strip (lower s)).
Proof.
  unfold canonical. now rewrite <- lower_strip, strip_idem, lower_strip, lower_idem.
Qed.

Lemma normalized_name_lower (s : string) :
  lower (normalized_name s) = normalized_name s.
Proof. unfold normalized_name. now rewrite lower_strip, lower_idem. Qed.

(** The length test of line 38 does not change the result: both branches
    taken by a name that ends in [s] return it as it is. *)
Lemma final_name_cases (s : string) :
  final_name s =
  if endswith (normalized_name s) "s"
  then normalized_name s else normalized_name s ++ "s".
Proof.
  unfold final_name. cbv zeta.
  destruct (endswith (normalized_name s) "s"); simpl.
  - now destruct (1 <? len (normalized_name s)).
  - reflexivity.
Qed.

Lemma final_name_endswith_s (s : string) : endswith (final_name s) "s" = true.
Proof.
  rewrite final_name_cases.
  destruct (endswith (normalized_name s) "s") eqn:E; [exact E|].
  apply endswith_snoc.
Qed.

Lemma final_name_canonical (s : string) : canonical (final_name s).
Proof.
  rewrite final_name_cases.
  destruct (endswith (normalized_name s) "s").
  - apply canonical_strip_lower.
  - unfold canonical. rewrite lower_app, normalized_name_lower.
    apply strip_snoc_s.
Qed.

End Normaliser.

(** ** The dict *)

Section DictFacts.
Import Dict.

Lemma get_set_same k v d : get k (set k v d) = Some v.
Proof.
  induction d as [|[k' v'] d IH]; simpl.
  - now rewrite String.eqb_refl.
  - destruct (String.eqb k k') eqn:E; simpl; rewrite E; [reflexivity | exact IH].
Qed.

Lemma get_set_other k k' v d : k' <> k -> get k' (set k v d) = get k' d.
Proof.
  intros N. induction d as [|[k0 v0] d IH]; simpl.
  - apply String.eqb_neq in N. now rewrite N.
  - destruct (String.eqb k k0) eqn:E; simpl.
    + apply String.eqb_eq in E. subst k0.
      apply String.eqb_neq in N. now rewrite N.
    + now rewrite IH.
Qed.

Lemma get_del_same k d : get k (del k d) = None.
Proof.
  induction d as [|[k' v'] d IH]; simpl; [reflexivity|].
  destruct (String.eqb k k') eqn:E; simpl; [exact IH | now rewrite E].
Qed.

Lemma get_del_other k k' d : k' <> k -> get k' (del k d) = get k' d.
Proof.
  intros N. induction d as [|[k0 v0] d IH]; simpl; [reflexivity|].
  destruct (String.eqb k k0) eqn:E; simpl.
  - apply String.eqb_eq in E. subst k0.
    apply String.eqb_neq in N. now rewrite N.
  - now rewrite IH.
Qed.

Lemma get_None_iff k d : get k d = None <-> ~ In k (keys d).
Proof.
  induction d as [|[k' v'] d IH]; simpl; [tauto|].
  destruct (String.eqb k k') eqn:E.
  - apply String.eqb_eq in E. subst. split; [discriminate | tauto].
  - apply String.eqb_neq in E. rewrite IH. split; [intros H [F|F] | ]; auto.
Qed.

Lemma get_Some_In k v d : get k d = Some v -> In k (keys d).
Proof.
  intros H. destruct (in_dec string_dec k (keys d)) as [I|N]; [exact I|].
  apply get_None_iff in N. congruence.
Qed.

Lemma In_keys_set k v d k' : In k' (keys (set k v d)) -> k' = k \/ In k' (keys d).
Proof.
  induction d as [|[k0 v0] d IH]; simpl.
  - intros [H|[]]; auto.
  - destruct (String.eqb k k0) eqn:E; simpl.
    + tauto.
    + intros [H|H]; [tauto|]. destruct (IH H); auto.
Qed.

Lemma In_keys_del k d k' : In k' (keys (del k d)) -> In k' (keys d) /\ k' <> k.
Proof.
  induction d as [|[k0 v0] d IH]; simpl; [tauto|].
  destruct (String.eqb k k0) eqn:E; simpl.
  - intros H. destruct (IH H). tauto.
  - apply String.eqb_neq in E. intros [H|H].
    + subst. split; [tauto | congruence].
    + destruct (IH H). tauto.
Qed.

(** The first binding of a key is the one [get] returns. *)
Lemma get_app_first k v l1 l2 :
  ~ In k (keys l1) -> get k (l1 ++ (k, v) :: l2)%list = Some v.
Proof.
  induction l1 as [|[k0 v0] l1 IH]; simpl.
  - now rewrite String.eqb_refl.
  - intros N. destruct (String.eqb k k0) eqn:E.
    + apply String.eqb_eq in E. subst k0. exfalso. apply N. now left.
    + apply IH. tauto.
Qed.

(** The operations keep the keys of a dict distinct. *)
Lemma NoDup_keys_set k v d : NoDup (keys d) -> NoDup (keys (set k v d)).
Proof.
  induction d as [|[k0 v0] d IH]; simpl; intros N.
  - constructor; [intros [] | constructor].
  - destruct (String.eqb k k0) eqn:E; simpl; [exact N|].
    apply String.eqb_neq in E. inversion_clear N as [|? ? N0 N1].
    constructor; [|now apply IH].
    intros I. apply In_keys_set in I. destruct I as [I|I]; [congruence | tauto].
Qed.

Lemma NoDup_keys_del k d : NoDup (keys d) -> NoDup (keys (del k d)).
Proof.
  induction d as [|[k0 v0] d IH]; simpl; intros N; [constructor|].
  inversion_clear N as [|? ? N0 N1].
  destruct (String.eqb k k0); simpl; [now apply IH|].
  constructor; [|now apply IH].
  intros I. apply In_keys_del in I. tauto.
Qed.

Lemma keys_snapshot d : map Frontend.item (Frontend.snapshot d) = keys d.
Proof.
  unfold Frontend.snapshot, keys. rewrite map_map.
  apply map_ext. now intros [k v].
Qed.

Lemma snapshot_app (l1 l2 : t) :
  Frontend.snapshot (l1 ++ l2)%list = (Frontend.snapshot l1 ++ Frontend.snapshot l2)%list.
Proof. apply map_app. Qed.

End DictFacts.

(** ** The endpoints, case by case *)

Section Endpoints.
Import PyStr Frontend.

Lemma add_to_cart_reject cart name q a :
  q <= 0 ->
  add_to_cart cart (mkRequest name q a)
  = (HttpError 400 "Quantity must be positive", cart).
Proof.
  intros H. unfold add_to_cart. simpl.
  now destruct (Z.leb_spec q 0); [|lia].
Qed.

Lemma add_to_cart_accept cart name q a :
  0 < q ->
  let key := strip (lower name) in
  let cart' := Dict.set key (Dict.quantity_of key cart + q) cart in
  add_to_cart cart (mkRequest name q a)
  = (Ok200 (mkResponse true
              ("Successfully added " ++ str_of_int q ++ " " ++ name ++ " to cart")
              (snapshot cart') (Dict.sum_values cart')),
     cart').
Proof.
  intros H. unfold add_to_cart, Dict.quantity_of. simpl.
  destruct (Z.leb_spec q 0); [lia|].
  now destruct (Dict.get (strip (lower name)) cart).
Qed.

Lemma remove_from_cart_reject cart name q a :
  q <= 0 ->
  remove_from_cart cart (mkRequest name q a)
  = (HttpError 400 "Quantity must be positive", cart).
Proof.
  intros H. unfold remove_from_cart. simpl.
  now destruct (Z.leb_spec q 0); [|lia].
Qed.

Lemma remove_from_cart_miss cart name q a :
  0 < q ->
  Dict.get (strip (lower name)) cart = None ->
  remove_from_cart cart (mkRequest name q a)
  = (Ok200 (mkResponse false (name ++ " is not in your cart")
              (snapshot cart) (Dict.sum_values cart)),
     cart).
Proof.
  intros H G. unfold remove_from_cart. simpl.
  destruct (Z.leb_spec q 0); [lia|]. now rewrite G.
Qed.

Lemma remove_from_cart_hit cart name q a stored :
  0 < q ->
  Dict.get (strip (lower name)) cart = Some stored ->
  let cart' := after_removal (strip (lower name)) stored q cart in
  remove_from_cart cart (mkRequest name q a)
  = (Ok200 (mkResponse true (removal_message name stored q)
              (snapshot cart') (Dict.sum_values cart')),
     cart').
Proof.
  intros H G. unfold remove_from_cart, after_removal, removal_message. simpl.
  destruct (Z.leb_spec q 0); [lia|]. rewrite G.
  now destruct (stored <=? q).
Qed.

End Endpoints.

(** ** The client's smart matching *)

Section SmartMatching.
Import PyStr Frontend VoiceAgent.

Lemma matches_rule (item_lower key : string) :
  matches item_lower key = true <-> Spec.rule item_lower key.
Proof.
  unfold matches, Spec.rule.
  rewrite !orb_true_iff, !String.eqb_eq. tauto.
Qed.

Lemma matches_false_rule (item_lower key : string) :
  matches item_lower key = false <-> ~ Spec.rule item_lower key.
Proof.
  rewrite <- matches_rule. destruct (matches item_lower key); intuition congruence.
Qed.

(** Entries that satisfy no pattern are passed over without a request. *)
Lemma smart_matching_skip st (l1 rest : Dict.t) il q :
  (forall k, In k (Dict.keys l1) -> matches il (strip (lower k)) = false) ->
  smart_matching st (snapshot (l1 ++ rest)%list) il q
  = smart_matching st (snapshot rest) il q.
Proof.
  induction l1 as [|[k v] l1 IH]; simpl; intros H; [reflexivity|].
  rewrite (H k (or_introl eq_refl)). apply IH. auto.
Qed.

Lemma smart_matching_none st (l : Dict.t) il q :
  (forall k, In k (Dict.keys l) -> matches il (strip (lower k)) = false) ->
  smart_matching st (snapshot l) il q = (None, st).
Proof.
  intros H. rewrite <- (app_nil_r l). now rewrite smart_matching_skip.
Qed.

(** The first entry that satisfies a pattern is retried, and the retry is
    what the loop returns. *)
Lemma smart_matching_first st (l1 l2 : Dict.t) k v il q :
  0 < q ->
  (forall k', In k' (Dict.keys l1) -> matches il (strip (lower k')) = false) ->
  matches il (strip (lower k)) = true ->
  exists body st',
    remove_from_cart st (mkRequest k q "remove") = (Ok200 body, st')
    /\ smart_matching st (snapshot (l1 ++ (k, v) :: l2)%list) il q
       = (Some (ApiJson body), st').
Proof.
  intros Hq H1 Hk. rewrite smart_matching_skip by exact H1. simpl. rewrite Hk.
  destruct (Dict.get (strip (lower k)) st) as [stored|] eqn:G.
  - rewrite (remove_from_cart_hit _ _ _ _ _ Hq G). eauto.
  - rewrite (remove_from_cart_miss _ _ _ _ Hq G). eauto.
Qed.

(** The first attempt finds the lower-cased, trimmed name: its response is
    returned and no matching takes place. *)
Lemma grocery_api_remove_item_hit cart raw q stored :
  0 < q ->
  Dict.get (strip (lower raw)) cart = Some stored ->
  let cart' := after_removal (strip (lower raw)) stored q cart in
  grocery_api_remove_item cart raw q
  = (ApiJson (mkResponse true (removal_message raw stored q)
                (snapshot cart') (Dict.sum_values cart')),
     cart').
Proof.
  intros Hq G. unfold grocery_api_remove_item.
  now rewrite (remove_from_cart_hit _ _ _ _ _ Hq G).
Qed.

(** The first attempt finds nothing: the loop runs over the snapshot of
    the cart, and the first response is the answer when it falls out. *)
Lemma grocery_api_remove_item_miss cart raw q :
  0 < q ->
  Dict.get (strip (lower raw)) cart = None ->
  grocery_api_remove_item cart raw q
  = match smart_matching cart (snapshot cart) (strip (lower raw)) q with
    | (Some retry_result, st) => (retry_result, st)
    | (None, st) =>
        (ApiJson (mkResponse false (raw ++ " is not in your cart")
                    (snapshot cart) (Dict.sum_values cart)), st)
    end.
Proof.
  intros Hq G. unfold grocery_api_remove_item.
  now rewrite (remove_from_cart_miss _ _ _ _ Hq G).
Qed.

Lemma grocery_api_remove_item_reject cart raw q :
  q <= 0 ->
  grocery_api_remove_item cart raw q
  = (ApiFailure ("Failed to remove " ++ raw ++ " from cart. Status: 400"), cart).
Proof.
  intros Hq. unfold grocery_api_remove_item.
  now rewrite (remove_from_cart_reject _ _ _ _ Hq).
Qed.

Lemma grocery_api_add_item_reject cart raw q :
  q <= 0 ->
  grocery_api_add_item cart raw q
  = (ApiFailure ("Failed to add " ++ raw ++ " to cart. Status: 400"), cart).
Proof.
  intros Hq. unfold grocery_api_add_item.
  now rewrite (add_to_cart_reject _ _ _ _ Hq).
Qed.

(** The loop either falls out, no entry satisfying a pattern, or returns
    the retry for the first entry that satisfies one. *)
Lemma smart_matching_cases (cart l : Dict.t) (il : string) (q : Z) :
  0 < q ->
  (smart_matching cart (snapshot l) il q = (None, cart)
   /\ forall k, In k (Dict.keys l) ->
        matches il (strip (lower k)) = false)
  \/ exists l1 k v l2 body st,
       l = (l1 ++ (k, v) :: l2)%list
       /\ (forall k', In k' (Dict.keys l1) ->
             matches il (strip (lower k')) = false)
       /\ matches il (strip (lower k)) = true
       /\ remove_from_cart cart (mkRequest k q "remove")
          = (Ok200 body, st)
       /\ smart_matching cart (snapshot l) il q
          = (Some (ApiJson body), st).
Proof.
  intros Hq. induction l as [|[k v] l IH].
  - left. split; [reflexivity | intros k []].
  - destruct (matches il (strip (lower k))) eqn:M.
    + right.
      destruct (smart_matching_first cart [] l k v il q Hq) as (body & st & E1 & E2);
        [intros k' [] | exact M |].
      exists [], k, v, l, body, st. repeat split; auto. intros k' [].
    + destruct IH as [[E N]|(l1 & k1 & v1 & l2 & body & st & El & N & M1 & E1 & E2)].
      * left. split.
        -- simpl. rewrite M. exact E.
        -- intros k' [<-|I]; auto.
      * right. exists ((k, v) :: l1), k1, v1, l2, body, st. subst l.
        repeat split; auto.
        -- intros k' [<-|I]; auto.
        -- simpl. rewrite M. exact E2.
Qed.

End SmartMatching.

(** ** The claims *)

Section Claims.
Import PyStr Frontend VoiceAgent.

Ltac canonical_keys_by_computation :=
  repeat (constructor; [reflexivity|]); constructor.

(** C1, as stated, fails.  With [egg] and [eggs] stored in that order,
    the raw name [Eggs] is not a stored key, and the first key in
    iteration order that satisfies a rule is [egg] (rule (c)); the code
    nevertheless removes from [eggs], found by the endpoint's own
    lower-casing before any matching. *)
Lemma C1_raw_name_counterexample :
  ~ (forall (cart : Dict.t) (raw : string) (q : Z),
        0 < q -> canonical_keys cart ->
        Spec.verbatim_lookup cart raw = None ->
        forall (l1 : Dict.t) k v (l2 : Dict.t),
          cart = (l1 ++ (k, v) :: l2)%list ->
          (forall k', In k' (Dict.keys l1) ->
             ~ Spec.rule (strip (lower raw)) k') ->
          Spec.rule (strip (lower raw)) k ->
          snd (grocery_api_remove_item cart raw q) = after_removal k v q cart).
Proof.
  intros H.
  specialize (H [("egg", 1); ("eggs", 2)] "Eggs" 1 eq_refl).
  assert (C : canonical_keys [("egg", 1); ("eggs", 2)])
    by canonical_keys_by_computation.
  specialize (H C eq_refl [] "egg" 1 [("eggs", 2)] eq_refl).
  assert (R : Spec.rule (strip (lower "Eggs")) "egg")
    by (right; right; left; reflexivity).
  specialize (H (fun k' (F : In k' []) => match F with end) R).
  vm_compute in H. discriminate H.
Qed.

(** C1 (amended): when the lower-cased, trimmed raw name is not a stored
    key, the first key in iteration order that satisfies one of the rules
    (a)-(d) is the one removed from, and when no key satisfies a rule the
    answer is the not-found response and the cart is unchanged. *)
Theorem C1_fuzzy_fallback_selects_first :
  forall (cart : Dict.t) (raw : string) (q : Z),
    0 < q -> canonical_keys cart ->
    Dict.get (strip (lower raw)) cart = None ->
    (forall (l1 : Dict.t) k v (l2 : Dict.t),
        cart = (l1 ++ (k, v) :: l2)%list ->
        (forall k', In k' (Dict.keys l1) -> ~ Spec.rule (strip (lower raw)) k') ->
        Spec.rule (strip (lower raw)) k ->
        let cart' := after_removal k v q cart in
        grocery_api_remove_item cart raw q
        = (ApiJson (mkResponse true (removal_message k v q)
                      (snapshot cart') (Dict.sum_values cart')),
           cart'))
    /\ ((forall k, In k (Dict.keys cart) -> ~ Spec.rule (strip (lower raw)) k) ->
        grocery_api_remove_item cart raw q
        = (ApiJson (mkResponse false (raw ++ " is not in your cart")
                      (snapshot cart) (Dict.sum_values cart)),
           cart)).
Proof.
  intros cart raw q Hq C G.
  assert (K : forall k, In k (Dict.keys cart) -> strip (lower k) = k)
    by (intros k I; exact (proj1 (Forall_forall _ _) C k I)).
  rewrite (grocery_api_remove_item_miss _ _ _ Hq G). split.
  - intros l1 k v l2 E N R cart'.
    assert (Kk : strip (lower k) = k).
    { apply K. subst cart. unfold Dict.keys. rewrite map_app. apply in_or_app.
      right. now left. }
    assert (N1 : forall k', In k' (Dict.keys l1) ->
                   matches (strip (lower raw)) (strip (lower k')) = false).
    { intros k' I. rewrite (K k').
      - apply matches_false_rule. now apply N.
      - subst cart. unfold Dict.keys. rewrite map_app. apply in_or_app. now left. }
    assert (Gk : Dict.get (strip (lower k)) cart = Some v).
    { rewrite Kk. subst cart. apply get_app_first. intros I. exact (N k I R). }
    rewrite E at 2. rewrite (smart_matching_skip _ _ _ _ _ N1). simpl.
    rewrite Kk at 1. rewrite (proj2 (matches_rule _ _) R).
    rewrite (remove_from_cart_hit _ _ _ _ _ Hq Gk). rewrite Kk. reflexivity.
  - intros N. rewrite smart_matching_none; [reflexivity|].
    intros k I. rewrite (K k I). apply matches_false_rule. now apply N.
Qed.

Lemma C1_fuzzy_fallback_witness :
  0 < 1
  /\ canonical_keys [("milk", 1); ("bananas", 2); ("banana", 5)]
  /\ Dict.get (strip (lower " Bananass ")) [("milk", 1); ("bananas", 2); ("banana", 5)]
     = None
  /\ grocery_api_remove_item [("milk", 1); ("bananas", 2); ("banana", 5)]
       " Bananass " 1
     = (ApiJson (mkResponse true "Removed 1 bananas from cart"
                   [mkEntry "milk" 1; mkEntry "bananas" 1; mkEntry "banana" 5] 7),
        [("milk", 1); ("bananas", 1); ("banana", 5)])
  /\ grocery_api_remove_item [("milk", 1)] "kiwi" 1
     = (ApiJson (mkResponse false "kiwi is not in your cart" [mkEntry "milk" 1] 1),
        [("milk", 1)]).
Proof.
  assert (C : canonical_keys [("milk", 1); ("bananas", 2); ("banana", 5)])
    by canonical_keys_by_computation.
  assert (C' : canonical_keys [("milk", 1)]) by canonical_keys_by_computation.
  split; [lia|]. split; [exact C|]. split; [reflexivity|]. split.
  - refine (proj1 (C1_fuzzy_fallback_selects_first
                     [("milk", 1); ("bananas", 2); ("banana", 5)] " Bananass " 1
                     eq_refl C eq_refl)
              [("milk", 1)] "bananas" 2 [("banana", 5)] eq_refl _ _).
    + intros k' [<-|[]] R. vm_compute in R.
      destruct R as [R|[R|[R|R]]]; discriminate R.
    + right; right; left; reflexivity.
  - refine (proj2 (C1_fuzzy_fallback_selects_first [("milk", 1)] "kiwi" 1
                     eq_refl C' eq_refl) _).
    intros k [<-|[]] R. vm_compute in R.
    destruct R as [R|[R|[R|R]]]; discriminate R.
Defined.

(** C2, as stated, fails: the first step is not a verbatim lookup.  With
    [eggs] stored, the raw name [ Eggs] is no key of the store, yet the
    first request already succeeds, the endpoint having lower-cased and
    trimmed the name. *)
Lemma C2_verbatim_counterexample :
  ~ (forall (cart : Dict.t) (raw : string) (q : Z) body st,
        0 < q ->
        remove_from_cart cart (mkRequest raw q "remove") = (Ok200 body, st) ->
        (success body = true <-> Spec.verbatim_lookup cart raw <> None)).
Proof.
  intros H.
  destruct (H [("eggs", 7)] " Eggs" 7 _ _ eq_refl eq_refl) as [H1 _].
  apply (H1 eq_refl). reflexivity.
Qed.

(** C2 (amended): the first step of a remove looks up the lower-cased,
    trimmed raw name, with no pluralisation; when that lookup finds a key
    the first response is the answer, and only when it finds nothing does
    the smart-matching loop run.  A raw name that is verbatim a key of a
    cart with canonical keys is found by that lookup. *)
Theorem C2_first_step_normalised_lookup :
  forall (cart : Dict.t) (raw : string) (q : Z),
    0 < q ->
    (forall stored,
        Dict.get (strip (lower raw)) cart = Some stored ->
        let cart' := after_removal (strip (lower raw)) stored q cart in
        remove_from_cart cart (mkRequest raw q "remove")
        = (Ok200 (mkResponse true (removal_message raw stored q)
                    (snapshot cart') (Dict.sum_values cart')), cart')
        /\ grocery_api_remove_item cart raw q
           = (ApiJson (mkResponse true (removal_message raw stored q)
                         (snapshot cart') (Dict.sum_values cart')), cart'))
    /\ (Dict.get (strip (lower raw)) cart = None ->
        grocery_api_remove_item cart raw q
        = match smart_matching cart (snapshot cart) (strip (lower raw)) q with
          | (Some retry_result, st) => (retry_result, st)
          | (None, st) =>
              (ApiJson (mkResponse false (raw ++ " is not in your cart")
                          (snapshot cart) (Dict.sum_values cart)), st)
          end)
    /\ (canonical_keys cart ->
        forall stored, Spec.verbatim_lookup cart raw = Some stored ->
                       Dict.get (strip (lower raw)) cart = Some stored).
Proof.
  intros cart raw q Hq. split; [|split].
  - intros stored G cart'. split.
    + apply (remove_from_cart_hit _ _ _ _ _ Hq G).
    + apply (grocery_api_remove_item_hit _ _ _ _ Hq G).
  - apply (grocery_api_remove_item_miss _ _ _ Hq).
  - intros C stored V. unfold Spec.verbatim_lookup in V.
    rewrite (proj1 (Forall_forall _ _) C raw (get_Some_In _ _ _ V)). exact V.
Qed.

Lemma C2_first_step_witness :
  0 < 7
  /\ Dict.get (strip (lower " Eggs")) [("eggs", 7)] = Some 7
  /\ grocery_api_remove_item [("eggs", 7)] " Eggs" 7
     = (ApiJson (mkResponse true "Removed all 7  Eggs from cart" [] 0), []).
Proof.
  split; [lia|]. split; [reflexivity|].
  exact (proj2 (proj1 (C2_first_step_normalised_lookup [("eggs", 7)] " Eggs" 7
                         eq_refl) 7 eq_refl)).
Defined.

(** C3: a remove of [q] that finds its key holding [stored] deletes the
    key and reports removing all [stored] when [stored <= q], and
    otherwise decrements by [q] and reports removing [q]; the quantity
    left is [max 0 (stored - q)], never negative, and when it is 0 the
    key is absent from the next view. *)
Theorem C3_remove_quantity_resolution :
  forall (cart : Dict.t) (name a : string) (q stored : Z),
    0 < q ->
    Dict.get (strip (lower name)) cart = Some stored ->
    let key := strip (lower name) in
    exists body cart',
      remove_from_cart cart (mkRequest name q a) = (Ok200 body, cart')
      /\ success body = true
      /\ (stored <= q ->
          cart' = Dict.del key cart
          /\ Dict.get key cart' = None
          /\ message body
             = "Removed all " ++ str_of_int stored ++ " " ++ name ++ " from cart")
      /\ (q < stored ->
          cart' = Dict.set key (stored - q) cart
          /\ Dict.get key cart' = Some (stored - q)
          /\ message body
             = "Removed " ++ str_of_int q ++ " " ++ name ++ " from cart")
      /\ Dict.quantity_of key cart' = Z.max 0 (stored - q)
      /\ 0 <= Dict.quantity_of key cart'
      /\ (Dict.quantity_of key cart' = 0 ->
          forall view st, view_cart cart' = (Ok200 view, st) ->
                          ~ In key (map item (cart_items view))).
Proof.
  intros cart name a q stored Hq G key.
  rewrite (remove_from_cart_hit _ _ _ _ _ Hq G). fold key.
  eexists _, _. split; [reflexivity|]. split; [reflexivity|].
  unfold after_removal, removal_message, Dict.quantity_of. simpl.
  destruct (Z.leb_spec stored q) as [L|L].
  - rewrite get_del_same. repeat split; try lia; auto.
    intros _ view st V. injection V as <- <-. simpl.
    rewrite keys_snapshot. intros I. apply In_keys_del in I. tauto.
  - rewrite get_set_same. repeat split; try lia; auto.
Qed.

Lemma C3_remove_quantity_witness :
  0 < 5
  /\ Dict.get (strip (lower "Eggs")) [("milk", 1); ("eggs", 12)] = Some 12
  /\ exists body cart',
      remove_from_cart [("milk", 1); ("eggs", 12)] (mkRequest "Eggs" 5 "remove")
      = (Ok200 body, cart')
      /\ message body = "Removed 5 Eggs from cart"
      /\ cart' = [("milk", 1); ("eggs", 7)].
Proof.
  split; [lia|]. split; [reflexivity|].
  destruct (C3_remove_quantity_resolution [("milk", 1); ("eggs", 12)]
              "Eggs" "remove" 5 12 eq_refl eq_refl)
    as (body & cart' & E & _ & _ & P & _).
  exists body, cart'. split; [exact E|].
  destruct (P eq_refl) as (Ec & _ & Em). split; [exact Em | exact Ec].
Defined.

Lemma validate_rejects (q : Z) (name : string) :
  q <= 0 \/ strip name = "" ->
  exists e, validate q name = inl e.
Proof.
  intros H. unfold validate.
  destruct (Z.ltb_spec q 1) as [L|L]; [eauto|].
  destruct H as [H|H]; [lia|].
  rewrite H. simpl. rewrite orb_true_r. eauto.
Qed.

(** C4, as stated, fails at the endpoint for item names: a request whose
    name is blank and whose quantity is positive is accepted and stores
    the empty key. *)
Lemma C4_blank_name_counterexample :
  ~ (forall (cart : Dict.t) (request : CartItemRequest),
        quantity request <= 0 \/ strip (item_name request) = "" ->
        exists status_code detail,
          add_to_cart cart request = (HttpError status_code detail, cart)).
Proof.
  intros H.
  destruct (H [] (mkRequest "   " 1 "add") (or_intror eq_refl))
    as (status_code & detail & E).
  vm_compute in E. discriminate E.
Qed.

(** C4 (amended): a request with quantity [<= 0] is rejected by both
    endpoints with status 400 and by both agent tools with an error
    reply; a request whose item name is empty after trimming is rejected
    by the agent tools, before any request reaches an endpoint.  A
    rejected request leaves the cart as it was. *)
Theorem C4_rejected_requests :
  forall (cart : Dict.t) (name a : string) (q : Z),
    q <= 0 \/ strip name = "" ->
    (exists e,
        GroceryAgent.add_to_cart cart q name = (error_response e, cart)
        /\ GroceryAgent.remove_from_cart cart q name = (error_response e, cart))
    /\ (q <= 0 ->
        add_to_cart cart (mkRequest name q a)
        = (HttpError 400 "Quantity must be positive", cart)
        /\ remove_from_cart cart (mkRequest name q a)
           = (HttpError 400 "Quantity must be positive", cart)
        /\ GroceryAgent.add_to_cart cart q name
           = (error_response "Quantity must be positive", cart)
        /\ GroceryAgent.remove_from_cart cart q name
           = (error_response "Quantity must be positive", cart)).
Proof.
  intros cart name a q H. split.
  - destruct (validate_rejects q name H) as [e E]. exists e.
    unfold GroceryAgent.add_to_cart, GroceryAgent.remove_from_cart.
    now rewrite E.
  - intros L. split; [apply add_to_cart_reject, L|].
    split; [apply remove_from_cart_reject, L|].
    unfold GroceryAgent.add_to_cart, GroceryAgent.remove_from_cart, validate.
    destruct (Z.ltb_spec q 1); [split; reflexivity | lia].
Qed.

Lemma C4_rejected_requests_witness :
  (0 <= 0 \/ strip "apple" = "")
  /\ add_to_cart [("milk", 1)] (mkRequest "apple" 0 "add")
     = (HttpError 400 "Quantity must be positive", [("milk", 1)])
  /\ (exists e,
        GroceryAgent.add_to_cart [("milk", 1)] 2 "  "
        = (error_response e, [("milk", 1)])
        /\ GroceryAgent.remove_from_cart [("milk", 1)] 2 "  "
           = (error_response e, [("milk", 1)])).
Proof.
  split; [left; lia|]. split.
  - apply (proj2 (C4_rejected_requests [("milk", 1)] "apple" "add" 0
                    (or_introl (Z.le_refl 0)))).
    apply Z.le_refl.
  - exact (proj1 (C4_rejected_requests [("milk", 1)] "  " "add" 2
                    (or_intror eq_refl))).
Defined.

(** C5: the normaliser of the add path is the function that lower-cases
    the trimmed name, keeps it when it ends in [s] and appends [s]
    otherwise; what it returns is the key under which the add endpoint
    stores the quantity. *)
Theorem C5_normaliser_refines_spec :
  forall (raw : string),
    final_name raw = Spec.normalize raw
    /\ forall (cart : Dict.t) (q : Z),
         0 < q ->
         snd (grocery_api_add_item cart raw q)
         = Dict.set (Spec.normalize raw)
             (Dict.quantity_of (Spec.normalize raw) cart + q) cart.
Proof.
  intros raw.
  assert (E : final_name raw = Spec.normalize raw).
  { rewrite final_name_cases. unfold Spec.normalize, normalized_name.
    now rewrite lower_strip. }
  split; [exact E|].
  intros cart q Hq. unfold grocery_api_add_item.
  rewrite (add_to_cart_accept _ _ _ _ Hq). simpl.
  rewrite (final_name_canonical raw). now rewrite E.
Qed.

Lemma C5_normaliser_witness :
  final_name "  Apple " = "apples"
  /\ final_name "GLASS" = "glass"
  /\ (0 < 3 /\ snd (grocery_api_add_item [("milk", 1)] "  Apple " 3)
               = [("milk", 1); ("apples", 3)]).
Proof.
  split; [exact (proj1 (C5_normaliser_refines_spec "  Apple "))|].
  split; [exact (proj1 (C5_normaliser_refines_spec "GLASS"))|].
  split; [lia|].
  exact (proj2 (C5_normaliser_refines_spec "  Apple ") [("milk", 1)] 3 eq_refl).
Defined.

(** C6: for a canonical key and positive quantities, two adds in a row
    both succeed and leave the key holding [q1 + q2] more than before:
    [q1 + q2] when the key was absent.  An add inserts an absent key with
    the given quantity and increments a present one. *)
Theorem C6_add_accumulates :
  forall (cart : Dict.t) (key a : string) (q1 q2 : Z),
    canonical key -> 0 < q1 -> 0 < q2 ->
    exists body1 cart1 body2 cart2,
      add_to_cart cart (mkRequest key q1 a) = (Ok200 body1, cart1)
      /\ add_to_cart cart1 (mkRequest key q2 a) = (Ok200 body2, cart2)
      /\ success body1 = true /\ success body2 = true
      /\ (Dict.get key cart = None ->
          Dict.get key cart1 = Some q1 /\ Dict.get key cart2 = Some (q1 + q2))
      /\ (forall stored,
            Dict.get key cart = Some stored ->
            Dict.get key cart1 = Some (stored + q1)
            /\ Dict.get key cart2 = Some (stored + q1 + q2))
      /\ (forall other, other <> key ->
            Dict.get other cart2 = Dict.get other cart).
Proof.
  intros cart key a q1 q2 C H1 H2.
  rewrite (add_to_cart_accept _ _ _ _ H1). cbv zeta. rewrite C.
  eexists _, _. 
  rewrite (add_to_cart_accept _ _ _ _ H2). cbv zeta. rewrite C.
  eexists _, _. split; [reflexivity|]. split; [reflexivity|].
  split; [reflexivity|]. split; [reflexivity|].
  unfold Dict.quantity_of. rewrite !get_set_same.
  split; [|split].
  - intros ->. split; reflexivity.
  - intros stored ->. split; reflexivity.
  - intros other N. now rewrite !get_set_other.
Qed.

Lemma C6_add_accumulates_witness :
  canonical "apples" /\ 0 < 3 /\ 0 < 4
  /\ exists body1 body2,
      add_to_cart [("milk", 1)] (mkRequest "apples" 3 "add")
      = (Ok200 body1, [("milk", 1); ("apples", 3)])
      /\ add_to_cart [("milk", 1); ("apples", 3)] (mkRequest "apples" 4 "add")
         = (Ok200 body2, [("milk", 1); ("apples", 7)])
      /\ success body1 = true /\ success body2 = true.
Proof.
  split; [reflexivity|]. split; [lia|]. split; [lia|].
  destruct (C6_add_accumulates [("milk", 1)] "apples" "add" 3 4
              eq_refl eq_refl eq_refl)
    as (body1 & cart1 & body2 & cart2 & E1 & E2 & S1 & S2 & _).
  exists body1, body2.
  assert (X1 : cart1 = [("milk", 1); ("apples", 3)])
    by (vm_compute in E1; now injection E1 as _ <-).
  subst cart1.
  assert (X2 : cart2 = [("milk", 1); ("apples", 7)])
    by (vm_compute in E2; now injection E2 as _ <-).
  subst cart2. auto.
Defined.

Lemma serve_NoDup (cart : Dict.t) (c : call) :
  NoDup (Dict.keys cart) -> NoDup (Dict.keys (snd (serve cart c))).
Proof.
  intros N. destruct c as [request|request| |]; simpl; [| |exact N|constructor].
  - unfold add_to_cart. destruct (quantity request <=? 0); simpl; [exact N|].
    destruct (Dict.get _ cart); now apply NoDup_keys_set.
  - unfold remove_from_cart. destruct (quantity request <=? 0); simpl; [exact N|].
    destruct (Dict.get _ cart) as [stored|]; simpl; [|exact N].
    destruct (stored <=? quantity request); simpl;
      [now apply NoDup_keys_del | now apply NoDup_keys_set].
Qed.

Lemma run_NoDup (cs : list call) :
  forall cart, NoDup (Dict.keys cart) -> NoDup (Dict.keys (run cart cs)).
Proof.
  induction cs as [|c cs IH]; intros cart N; simpl; [exact N|].
  apply IH, serve_NoDup, N.
Qed.

Lemma str_of_int_inj (a b : Z) : str_of_int a = str_of_int b -> a = b.
Proof.
  unfold str_of_int. intros E.
  assert (N : forall z, Z.to_int z <> Decimal.Pos Decimal.Nil
                        /\ Z.to_int z <> Decimal.Neg Decimal.Nil).
  { intros [|p|p]; simpl; split; try discriminate;
      intros [= H]; exact (DecimalPos.Unsigned.to_uint_nonnil p H). }
  apply DecimalZ.to_int_inj.
  assert (S : Some (Z.to_int a) = Some (Z.to_int b)).
  { rewrite <- (NilZero.isi (Z.to_int a)) by apply N.
    rewrite <- (NilZero.isi (Z.to_int b)) by apply N.
    now rewrite E. }
  now injection S.
Qed.

Lemma length_append (a b : string) :
  String.length (a ++ b) = (String.length a + String.length b)%nat.
Proof. induction a as [|x a IH]; simpl; [reflexivity | now rewrite IH]. Qed.

Lemma append_cancel_r (a b c : string) : a ++ c = b ++ c -> a = b.
Proof.
  revert b. induction a as [|x a IH]; intros [|y b] E; simpl in E.
  - reflexivity.
  - apply (f_equal String.length) in E. simpl in E.
    rewrite length_append in E. lia.
  - apply (f_equal String.length) in E. simpl in E.
    rewrite length_append in E. lia.
  - injection E as -> E. now rewrite (IH b E).
Qed.

(** C7, as stated, fails for the response: on a cart that holds two item
    types the first clear reports 2 and the second reports 0, so the
    second response is not the response of calling clear once. *)
Lemma C7_second_response_counterexample :
  ~ (forall (cart : Dict.t),
        snd (clear_cart (snd (clear_cart cart))) = snd (clear_cart cart)
        /\ fst (clear_cart (snd (clear_cart cart))) = fst (clear_cart cart)).
Proof.
  intros H. destruct (H [("milk", 1); ("eggs", 2)]) as [_ E].
  vm_compute in E. discriminate E.
Qed.

(** C7 (amended): clear empties the cart and reports how many item types
    it held (the entries of a cart built by requests have distinct keys);
    on an empty cart it succeeds and reports 0; after a second clear the
    cart is the one the first clear left, and the second response is the
    response of clearing an empty cart, which is the first response
    exactly when the cart was empty to begin with. *)
Theorem C7_clear_idempotent :
  forall (cart : Dict.t),
    clear_cart cart
    = (Ok200 (mkResponse true
                ("Cart cleared successfully. Removed "
                 ++ str_of_int (Z.of_nat (List.length (Dict.keys cart)))
                 ++ " item types.")
                [] 0), [])
    /\ clear_cart []
       = (Ok200 (mkResponse true
                   "Cart cleared successfully. Removed 0 item types." [] 0), [])
    /\ snd (clear_cart (snd (clear_cart cart))) = snd (clear_cart cart)
    /\ fst (clear_cart (snd (clear_cart cart))) = fst (clear_cart [])
    /\ Dict.keys (snd (clear_cart cart)) = []
    /\ (forall (cs : list call), NoDup (Dict.keys (run initial_cart cs)))
    /\ (fst (clear_cart (snd (clear_cart cart))) = fst (clear_cart cart)
        <-> cart = []).
Proof.
  intros cart. split; [|repeat split].
  - unfold clear_cart, Dict.len, Dict.keys. now rewrite length_map.
  - intros cs. apply run_NoDup. constructor.
  - unfold clear_cart. cbn [fst snd]. intros E.
    injection E as E.
    change "0 item types." with (str_of_int 0 ++ " item types.") in E.
    apply append_cancel_r in E.
    apply str_of_int_inj in E. unfold Dict.len in E.
    destruct cart; [reflexivity | simpl in E; lia].
  - now intros ->.
Qed.

Lemma C7_clear_idempotent_witness :
  clear_cart [("milk", 1); ("eggs", 2)]
  = (Ok200 (mkResponse true
              "Cart cleared successfully. Removed 2 item types." [] 0), [])
  /\ fst (clear_cart (snd (clear_cart [("milk", 1); ("eggs", 2)])))
     = Ok200 (mkResponse true
                "Cart cleared successfully. Removed 0 item types." [] 0).
Proof.
  split.
  - exact (proj1 (C7_clear_idempotent [("milk", 1); ("eggs", 2)])).
  - exact (proj1 (proj2 (proj2 (proj2
             (C7_clear_idempotent [("milk", 1); ("eggs", 2)]))))).
Defined.

(** C8: the remove endpoint by itself succeeds only when the lower-cased,
    trimmed name is a stored key; when it is not, the endpoint reports
    not-found, and whatever [grocery_api_remove_item] then removes it
    removes by calling the endpoint again with a stored key that its own
    loop matched.  With [bananas] stored, the endpoint reports not-found
    for [banana] and the client removes from [bananas]. *)
Theorem C8_endpoint_matches_literally :
  forall (cart : Dict.t) (name a : string) (q : Z),
    (forall body st,
        remove_from_cart cart (mkRequest name q a) = (Ok200 body, st) ->
        success body = true ->
        In (strip (lower name)) (Dict.keys cart))
    /\ (0 < q ->
        Dict.get (strip (lower name)) cart = None ->
        remove_from_cart cart (mkRequest name q a)
        = (Ok200 (mkResponse false (name ++ " is not in your cart")
                    (snapshot cart) (Dict.sum_values cart)), cart)
        /\ (grocery_api_remove_item cart name q
            = (ApiJson (mkResponse false (name ++ " is not in your cart")
                          (snapshot cart) (Dict.sum_values cart)), cart)
            \/ exists k body st,
                 In k (Dict.keys cart)
                 /\ Spec.rule (strip (lower name)) (strip (lower k))
                 /\ remove_from_cart cart (mkRequest k q "remove")
                    = (Ok200 body, st)
                 /\ grocery_api_remove_item cart name q = (ApiJson body, st)))
    /\ remove_from_cart [("bananas", 2)] (mkRequest "banana" 1 "remove")
       = (Ok200 (mkResponse false "banana is not in your cart"
                   [mkEntry "bananas" 2] 2), [("bananas", 2)])
    /\ grocery_api_remove_item [("bananas", 2)] "banana" 1
       = (ApiJson (mkResponse true "Removed 1 bananas from cart"
                     [mkEntry "bananas" 1] 1), [("bananas", 1)]).
Proof.
  intros cart name a q. split; [|split; [|split; reflexivity]].
  - intros body st E S. unfold remove_from_cart in E. simpl in E.
    destruct (q <=? 0); [discriminate E|].
    destruct (Dict.get (strip (lower name)) cart) as [stored|] eqn:G.
    + exact (get_Some_In _ _ _ G).
    + injection E as <- <-. discriminate S.
  - intros Hq G. split; [apply (remove_from_cart_miss _ _ _ _ Hq G)|].
    rewrite (grocery_api_remove_item_miss _ _ _ Hq G).
    destruct (smart_matching_cases cart cart (strip (lower name)) q Hq)
      as [[E _]|(l1 & k & v & l2 & body & st & El & _ & M & E1 & E2)].
    + left. now rewrite E.
    + right. exists k, body, st. rewrite E2.
      repeat split; auto.
      * rewrite El. unfold Dict.keys. rewrite map_app. apply in_or_app.
        right. now left.
      * now apply matches_rule.
Qed.

Lemma C8_endpoint_witness :
  0 < 1
  /\ Dict.get (strip (lower "Apple")) [("milk", 2); ("apples", 3)] = None
  /\ remove_from_cart [("milk", 2); ("apples", 3)] (mkRequest "Apple" 1 "remove")
     = (Ok200 (mkResponse false "Apple is not in your cart"
                 [mkEntry "milk" 2; mkEntry "apples" 3] 5),
        [("milk", 2); ("apples", 3)]).
Proof.
  split; [lia|]. split; [reflexivity|].
  exact (proj1 (proj1 (proj2 (C8_endpoint_matches_literally
                                [("milk", 2); ("apples", 3)] "Apple" "remove" 1))
                  eq_refl eq_refl)).
Defined.

Lemma serve_keys (cart : Dict.t) (c : call) (k : string) :
  In k (Dict.keys (snd (serve cart c))) ->
  In k (Dict.keys cart)
  \/ exists request, c = CallAdd request
                     /\ k = strip (lower (item_name request)).
Proof.
  destruct c as [request|request| |]; simpl.
  - unfold add_to_cart. destruct (quantity request <=? 0); simpl; [tauto|].
    intros I. destruct (Dict.get _ cart);
      apply In_keys_set in I; destruct I as [->|I]; eauto.
  - unfold remove_from_cart. destruct (quantity request <=? 0); simpl; [tauto|].
    destruct (Dict.get _ cart) as [stored|] eqn:G; simpl; [|tauto].
    destruct (stored <=? quantity request); simpl; intros I.
    + apply In_keys_del in I. tauto.
    + apply In_keys_set in I. destruct I as [->|I]; [|tauto].
      left. exact (get_Some_In _ _ _ G).
  - tauto.
  - intros [].
Qed.

Lemma serve_canonical (cart : Dict.t) (c : call) :
  canonical_keys cart -> canonical_keys (snd (serve cart c)).
Proof.
  unfold canonical_keys. rewrite !Forall_forall. intros C k I.
  destruct (serve_keys _ _ _ I) as [J|(request & _ & ->)].
  - now apply C.
  - apply canonical_strip_lower.
Qed.

Lemma run_canonical (cs : list call) :
  forall cart, canonical_keys cart -> canonical_keys (run cart cs).
Proof.
  induction cs as [|c cs IH]; intros cart C; simpl; [exact C|].
  apply IH, serve_canonical, C.
Qed.

(** C9: from the empty cart, after any sequence of requests every stored
    key is its own [lower().strip()]; a key that a request brings into
    the store is the lower-cased, trimmed name of an add request, and
    remove, view and clear bring in none. *)
Theorem C9_keys_stay_canonical :
  forall (cs : list call),
    (forall k, In k (Dict.keys (run initial_cart cs)) -> strip (lower k) = k)
    /\ (forall (cart : Dict.t) (c : call) (k : string),
           In k (Dict.keys (snd (serve cart c))) ->
           ~ In k (Dict.keys cart) ->
           exists request,
             c = CallAdd request /\ k = strip (lower (item_name request))
             /\ strip (lower k) = k)
    /\ (forall (cart : Dict.t) (request : CartItemRequest) (k : string),
           In k (Dict.keys (snd (remove_from_cart cart request))) ->
           In k (Dict.keys cart))
    /\ (forall (cart : Dict.t), Dict.keys (snd (clear_cart cart)) = []).
Proof.
  intros cs. split; [|split; [|split]].
  - apply Forall_forall. apply (run_canonical cs initial_cart). constructor.
  - intros cart c k I N.
    destruct (serve_keys _ _ _ I) as [J|(request & E & ->)]; [tauto|].
    exists request. split; [exact E|]. split; [reflexivity|].
    apply canonical_strip_lower.
  - intros cart request k I.
    destruct (serve_keys cart (CallRemove request) k I) as [J|(r & E & _)];
      [exact J | discriminate E].
  - reflexivity.
Qed.

Lemma C9_keys_stay_canonical_witness :
  In "apples" (Dict.keys (run initial_cart
                 [CallAdd (mkRequest " Milk " 2 "add");
                  CallAdd (mkRequest "APPLES" 3 "add");
                  CallRemove (mkRequest "milk " 2 "remove")]))
  /\ strip (lower "apples") = "apples".
Proof.
  assert (I : In "apples" (Dict.keys (run initial_cart
                 [CallAdd (mkRequest " Milk " 2 "add");
                  CallAdd (mkRequest "APPLES" 3 "add");
                  CallRemove (mkRequest "milk " 2 "remove")])))
    by (left; reflexivity).
  split; [exact I|].
  exact (proj1 (C9_keys_stay_canonical _) "apples" I).
Defined.

(** C10: what the normaliser returns ends in [s], and normalising it
    again returns it unchanged. *)
Theorem C10_normaliser_idempotent :
  forall (raw : string),
    endswith (final_name raw) "s" = true
    /\ final_name (final_name raw) = final_name raw.
Proof.
  intros raw. split; [apply final_name_endswith_s|].
  rewrite (final_name_cases (final_name raw)).
  unfold normalized_name at 1 2. rewrite (final_name_canonical raw).
  now rewrite final_name_endswith_s.
Qed.

End Claims.

(** ** More on the dict *)

Section DictAlgebra.
Import Dict.

Lemma set_set k v1 v2 d : set k v2 (set k v1 d) = set k v2 d.
Proof.
  induction d as [|[k0 v0] d IH]; simpl.
  - now rewrite String.eqb_refl.
  - destruct (String.eqb k k0) eqn:E; simpl; rewrite E; [reflexivity | now rewrite IH].
Qed.

Lemma del_set k v d : del k (set k v d) = del k d.
Proof.
  induction d as [|[k0 v0] d IH]; simpl.
  - now rewrite String.eqb_refl.
  - destruct (String.eqb k k0) eqn:E; simpl; rewrite E; [reflexivity | now rewrite IH].
Qed.

Lemma del_absent k d : get k d = None -> del k d = d.
Proof.
  induction d as [|[k0 v0] d IH]; simpl; [reflexivity|].
  destruct (String.eqb k k0); [discriminate|]. intros G. now rewrite IH.
Qed.

Lemma set_same k v d : get k d = Some v -> set k v d = d.
Proof.
  induction d as [|[k0 v0] d IH]; simpl; [discriminate|].
  destruct (String.eqb k k0); [now intros [= ->] | intros G; now rewrite IH].
Qed.

Lemma keys_set_present k v d : In k (keys d) -> keys (set k v d) = keys d.
Proof.
  induction d as [|[k0 v0] d IH]; simpl; [tauto|].
  destruct (String.eqb k k0) eqn:E; simpl; [reflexivity|].
  apply String.eqb_neq in E. intros [F|I]; [congruence | now rewrite IH].
Qed.

Lemma set_absent k v d : get k d = None -> set k v d = (d ++ [(k, v)])%list.
Proof.
  induction d as [|[k0 v0] d IH]; simpl; [reflexivity|].
  destruct (String.eqb k k0); [discriminate|]. intros G. now rewrite IH.
Qed.

Lemma keys_del k d : keys (del k d) = List.remove string_dec k (keys d).
Proof.
  induction d as [|[k0 v0] d IH]; simpl; [reflexivity|].
  destruct (string_dec k k0) as [->|N].
  - now rewrite String.eqb_refl.
  - apply String.eqb_neq in N. rewrite N. simpl. now rewrite IH.
Qed.

Lemma sum_values_set k v d :
  sum_values (set k v d) = sum_values d - quantity_of k d + v.
Proof.
  unfold sum_values, quantity_of.
  induction d as [|[k0 v0] d IH]; simpl; [lia|].
  destruct (String.eqb k k0); simpl; [lia|]. rewrite IH. lia.
Qed.

Lemma sum_values_del k d :
  NoDup (keys d) -> sum_values (del k d) = sum_values d - quantity_of k d.
Proof.
  unfold sum_values, quantity_of.
  induction d as [|[k0 v0] d IH]; simpl; intros N; [lia|].
  inversion_clear N as [|? ? N0 N1].
  destruct (String.eqb k k0) eqn:E; simpl.
  - apply String.eqb_eq in E. subst k0.
    apply get_None_iff in N0. rewrite (del_absent _ _ N0). lia.
  - rewrite (IH N1). lia.
Qed.

Lemma get_positive k v d : Session.positive_quantities d -> get k d = Some v -> 1 <= v.
Proof.
  unfold Session.positive_quantities.
  induction d as [|[k0 v0] d IH]; simpl; [discriminate|].
  intros P. inversion_clear P as [|? ? P0 P1].
  destruct (String.eqb k k0); [intros [= <-]; exact P0 | now apply IH].
Qed.

Lemma positive_set k v d :
  1 <= v -> Session.positive_quantities d -> Session.positive_quantities (set k v d).
Proof.
  unfold Session.positive_quantities. intros Hv.
  induction d as [|[k0 v0] d IH]; simpl; intros P.
  - constructor; [exact Hv | constructor].
  - inversion_clear P as [|? ? P0 P1].
    destruct (String.eqb k k0); constructor; auto.
Qed.

Lemma positive_del k d :
  Session.positive_quantities d -> Session.positive_quantities (del k d).
Proof.
  unfold Session.positive_quantities.
  induction d as [|[k0 v0] d IH]; simpl; intros P; [constructor|].
  inversion_clear P as [|? ? P0 P1].
  destruct (String.eqb k k0); [|constructor]; auto.
Qed.

Lemma positive_len_le_sum d :
  Session.positive_quantities d -> len d <= sum_values d.
Proof.
  unfold Session.positive_quantities, len, sum_values.
  induction d as [|[k0 v0] d IH]; intros P; [simpl; lia|].
  inversion_clear P as [|? ? P0 P1]. specialize (IH P1).
  simpl fold_right. simpl in P0. rewrite length_cons. lia.
Qed.

Lemma total_of_snapshot d : Session.total_of (Frontend.snapshot d) = sum_values d.
Proof.
  unfold Session.total_of, Frontend.snapshot, sum_values. rewrite map_map.
  f_equal. apply map_ext. now intros [k v].
Qed.

Lemma restore_snapshot d : Session.restore (Frontend.snapshot d) = d.
Proof.
  unfold Session.restore, Frontend.snapshot. rewrite map_map.
  rewrite <- (map_id d) at 2. apply map_ext. now intros [k v].
Qed.

End DictAlgebra.


(** ** The endpoints: responses, invariants and composition *)

Section EndpointProperties.
Import PyStr Frontend VoiceAgent Session.

(** X1: a 200 response of any endpoint lists the store as the call left
    it, in order, and its total is the sum of the quantities it lists; a
    call that raises leaves the store as it was. *)
Theorem X1_response_reflects_store :
  forall (cart : Dict.t) (c : call),
    (forall body st,
        serve cart c = (Ok200 body, st) ->
        cart_items body = snapshot st
        /\ restore (cart_items body) = st
        /\ total_items body = total_of (cart_items body))
    /\ (forall status_code detail st,
           serve cart c = (HttpError status_code detail, st) -> st = cart).
Proof.
  intros cart c. split.
  - intros body st E.
    assert (H : cart_items body = snapshot st /\ total_items body = Dict.sum_values st).
    { destruct c as [request|request| |]; simpl in E.
      - unfold add_to_cart in E. destruct (quantity request <=? 0); [discriminate E|].
        injection E as <- <-. split; reflexivity.
      - unfold remove_from_cart in E.
        destruct (quantity request <=? 0); [discriminate E|].
        destruct (Dict.get _ cart) as [stored|].
        + destruct (stored <=? quantity request);
            injection E as <- <-; split; reflexivity.
        + injection E as <- <-. split; reflexivity.
      - injection E as <- <-. split; reflexivity.
      - injection E as <- <-. split; reflexivity. }
    destruct H as [H1 H2]. rewrite H1, H2, restore_snapshot, total_of_snapshot. auto.
  - intros status_code detail st E.
    destruct c as [request|request| |]; simpl in E.
    + unfold add_to_cart in E. destruct (quantity request <=? 0);
        [now injection E as _ _ <- | discriminate E].
    + unfold remove_from_cart in E.
      destruct (quantity request <=? 0); [now injection E as _ _ <-|].
      destruct (Dict.get _ cart) as [stored|]; [|discriminate E].
      destruct (stored <=? quantity request); discriminate E.
    + discriminate E.
    + discriminate E.
Qed.

Lemma X1_response_reflects_store_witness :
  serve [("milk", 2); ("eggs", 12)] (CallRemove (mkRequest "Eggs" 5 "remove"))
  = (Ok200 (mkResponse true "Removed 5 Eggs from cart"
              [mkEntry "milk" 2; mkEntry "eggs" 7] 9),
     [("milk", 2); ("eggs", 7)])
  /\ restore [mkEntry "milk" 2; mkEntry "eggs" 7] = [("milk", 2); ("eggs", 7)]
  /\ 9 = total_of [mkEntry "milk" 2; mkEntry "eggs" 7].
Proof.
  split; [reflexivity|].
  exact (proj2 (proj1 (X1_response_reflects_store [("milk", 2); ("eggs", 12)]
                         (CallRemove (mkRequest "Eggs" 5 "remove"))) _ _ eq_refl)).
Defined.

Lemma serve_positive (cart : Dict.t) (c : call) :
  positive_quantities cart -> positive_quantities (snd (serve cart c)).
Proof.
  intros P. destruct c as [request|request| |]; simpl; [| |exact P|constructor].
  - unfold add_to_cart. destruct (Z.leb_spec (quantity request) 0); simpl; [exact P|].
    destruct (Dict.get _ cart) as [old|] eqn:G; apply positive_set; auto; try lia.
    pose proof (get_positive _ _ _ P G). lia.
  - unfold remove_from_cart. destruct (quantity request <=? 0); simpl; [exact P|].
    destruct (Dict.get _ cart) as [stored|]; simpl; [|exact P].
    destruct (Z.leb_spec stored (quantity request)); simpl.
    + now apply positive_del.
    + apply positive_set; [lia | exact P].
Qed.

Lemma run_positive (cs : list call) :
  forall cart, positive_quantities cart -> positive_quantities (run cart cs).
Proof.
  induction cs as [|c cs IH]; intros cart P; simpl; [exact P|].
  apply IH, serve_positive, P.
Qed.

(** X2: from the empty store, after any sequence of requests every stored
    quantity is at least 1, so the total is at least the number of item
    types. *)
Theorem X2_quantities_stay_positive :
  forall (cs : list call),
    (forall k v, Dict.get k (run initial_cart cs) = Some v -> 1 <= v)
    /\ Dict.len (run initial_cart cs) <= Dict.sum_values (run initial_cart cs).
Proof.
  intros cs.
  assert (P : positive_quantities (run initial_cart cs))
    by (apply run_positive; constructor).
  split.
  - intros k v. now apply get_positive.
  - now apply positive_len_le_sum.
Qed.

Lemma X2_quantities_stay_positive_witness :
  Dict.get "eggs" (run initial_cart
                     [CallAdd (mkRequest "Eggs" 12 "add");
                      CallRemove (mkRequest "eggs" 5 "remove");
                      CallRemove (mkRequest "milk" 1 "remove")]) = Some 7
  /\ 1 <= 7.
Proof.
  split; [reflexivity|].
  exact (proj1 (X2_quantities_stay_positive
                  [CallAdd (mkRequest "Eggs" 12 "add");
                   CallRemove (mkRequest "eggs" 5 "remove");
                   CallRemove (mkRequest "milk" 1 "remove")]) "eggs" 7 eq_refl).
Defined.

(** X3: adding a positive quantity of an item and then removing the same
    quantity of it gives back the store exactly, order included, as long
    as the quantity the item held before, if any, was at least 1. *)
Theorem X3_add_then_remove_restores :
  forall (cart : Dict.t) (name a1 a2 : string) (q : Z),
    0 < q ->
    (forall n, Dict.get (strip (lower name)) cart = Some n -> 1 <= n) ->
    snd (remove_from_cart (snd (add_to_cart cart (mkRequest name q a1)))
           (mkRequest name q a2)) = cart.
Proof.
  intros cart name a1 a2 q Hq P.
  rewrite (add_to_cart_accept _ _ _ _ Hq). cbv zeta. simpl snd.
  set (key := strip (lower name)) in *.
  erewrite remove_from_cart_hit; [|exact Hq|apply get_set_same].
  simpl snd. fold key. unfold after_removal, Dict.quantity_of.
  destruct (Dict.get key cart) as [n|] eqn:G.
  - specialize (P n eq_refl).
    destruct (Z.leb_spec (n + q) q); [lia|].
    rewrite set_set. replace (n + q - q) with n by lia. now apply set_same.
  - destruct (Z.leb_spec (0 + q) q); [|lia].
    rewrite del_set. now apply del_absent.
Qed.

Lemma X3_add_then_remove_restores_witness :
  0 < 3
  /\ (forall n, Dict.get (strip (lower " Milk")) [("milk", 2); ("eggs", 12)] = Some n
                -> 1 <= n)
  /\ snd (remove_from_cart
            (snd (add_to_cart [("milk", 2); ("eggs", 12)] (mkRequest " Milk" 3 "add")))
            (mkRequest " Milk" 3 "remove"))
     = [("milk", 2); ("eggs", 12)].
Proof.
  assert (P : forall n, Dict.get (strip (lower " Milk")) [("milk", 2); ("eggs", 12)]
                        = Some n -> 1 <= n)
    by (intros n E; vm_compute in E; injection E as <-; lia).
  split; [lia|]. split; [exact P|].
  exact (X3_add_then_remove_restores [("milk", 2); ("eggs", 12)] " Milk"
           "add" "remove" 3 eq_refl P).
Defined.

(** X4: an accepted add raises the reported total by the quantity added;
    a remove that finds its key holding [stored] lowers it by the smaller
    of [stored] and the quantity asked for. *)
Theorem X4_totals :
  forall (cart : Dict.t) (name a : string) (q : Z),
    0 < q ->
    (forall body st,
        add_to_cart cart (mkRequest name q a) = (Ok200 body, st) ->
        total_items body = Dict.sum_values cart + q)
    /\ (forall stored body st,
           NoDup (Dict.keys cart) ->
           Dict.get (strip (lower name)) cart = Some stored ->
           remove_from_cart cart (mkRequest name q a) = (Ok200 body, st) ->
           total_items body = Dict.sum_values cart - Z.min stored q).
Proof.
  intros cart name a q Hq. split.
  - intros body st E. rewrite (add_to_cart_accept _ _ _ _ Hq) in E.
    injection E as <- <-. simpl. rewrite sum_values_set. lia.
  - intros stored body st N G E.
    rewrite (remove_from_cart_hit _ _ _ _ _ Hq G) in E.
    injection E as <- <-. simpl. unfold after_removal.
    destruct (Z.leb_spec stored q).
    + rewrite (sum_values_del _ _ N). unfold Dict.quantity_of. rewrite G. lia.
    + rewrite sum_values_set. unfold Dict.quantity_of. rewrite G. lia.
Qed.

Lemma X4_totals_witness :
  0 < 20
  /\ NoDup (Dict.keys [("milk", 2); ("eggs", 12)])
  /\ Dict.get (strip (lower "EGGS")) [("milk", 2); ("eggs", 12)] = Some 12
  /\ exists body st,
       remove_from_cart [("milk", 2); ("eggs", 12)] (mkRequest "EGGS" 20 "remove")
       = (Ok200 body, st)
       /\ total_items body = 14 - Z.min 12 20.
Proof.
  assert (N : NoDup (Dict.keys [("milk", 2); ("eggs", 12)])).
  { repeat constructor; simpl; intros H;
      repeat (destruct H as [H|H]; [discriminate H|]); exact H. }
  split; [lia|]. split; [exact N|]. split; [reflexivity|].
  eexists _, _. split; [reflexivity|].
  exact (proj2 (X4_totals [("milk", 2); ("eggs", 12)] "EGGS" "remove" 20 eq_refl)
           12 _ _ N eq_refl eq_refl).
Defined.

(** X5: the store keeps insertion order.  An add to a stored key leaves
    the sequence of keys as it is, an add of a new key puts it last; a
    partial remove leaves the sequence as it is, and a full remove takes
    out the key and nothing else. *)
Theorem X5_insertion_order :
  forall (cart : Dict.t) (name a : string) (q : Z),
    0 < q ->
    let key := strip (lower name) in
    (In key (Dict.keys cart) ->
     Dict.keys (snd (add_to_cart cart (mkRequest name q a))) = Dict.keys cart)
    /\ (~ In key (Dict.keys cart) ->
        snd (add_to_cart cart (mkRequest name q a)) = (cart ++ [(key, q)])%list)
    /\ (forall stored,
           Dict.get key cart = Some stored -> q < stored ->
           Dict.keys (snd (remove_from_cart cart (mkRequest name q a)))
           = Dict.keys cart)
    /\ (forall stored,
           Dict.get key cart = Some stored -> stored <= q ->
           Dict.keys (snd (remove_from_cart cart (mkRequest name q a)))
           = List.remove string_dec key (Dict.keys cart)).
Proof.
  intros cart name a q Hq key. split; [|split; [|split]].
  - intros I. rewrite (add_to_cart_accept _ _ _ _ Hq). simpl.
    now apply keys_set_present.
  - intros N. rewrite (add_to_cart_accept _ _ _ _ Hq). simpl. fold key.
    apply get_None_iff in N. unfold Dict.quantity_of. rewrite N.
    now apply set_absent.
  - intros stored G L. rewrite (remove_from_cart_hit _ _ _ _ _ Hq G). simpl.
    unfold after_removal. destruct (Z.leb_spec stored q); [lia|].
    apply keys_set_present. exact (get_Some_In _ _ _ G).
  - intros stored G L. rewrite (remove_from_cart_hit _ _ _ _ _ Hq G). simpl.
    unfold after_removal. destruct (Z.leb_spec stored q); [|lia].
    apply keys_del.
Qed.

Lemma X5_insertion_order_witness :
  0 < 4
  /\ In (strip (lower "Milk")) (Dict.keys [("milk", 2); ("eggs", 12)])
  /\ Dict.keys (snd (add_to_cart [("milk", 2); ("eggs", 12)]
                       (mkRequest "Milk" 4 "add")))
     = ["milk"; "eggs"].
Proof.
  assert (I : In (strip (lower "Milk")) (Dict.keys [("milk", 2); ("eggs", 12)]))
    by (left; reflexivity).
  split; [lia|]. split; [exact I|].
  exact (proj1 (X5_insertion_order [("milk", 2); ("eggs", 12)] "Milk" "add" 4
                  eq_refl) I).
Defined.

(** X6: two removes of the same item in a row leave the store that one
    remove of the two quantities together leaves. *)
Theorem X6_removes_add_up :
  forall (cart : Dict.t) (name a : string) (q1 q2 : Z),
    0 < q1 -> 0 < q2 ->
    snd (remove_from_cart (snd (remove_from_cart cart (mkRequest name q1 a)))
           (mkRequest name q2 a))
    = snd (remove_from_cart cart (mkRequest name (q1 + q2) a)).
Proof.
  intros cart name a q1 q2 H1 H2.
  assert (H12 : 0 < q1 + q2) by lia.
  destruct (Dict.get (strip (lower name)) cart) as [stored|] eqn:G.
  - rewrite (remove_from_cart_hit _ _ _ _ _ H1 G).
    rewrite (remove_from_cart_hit _ _ _ _ _ H12 G). cbn [snd].
    unfold after_removal.
    destruct (Z.leb_spec stored q1).
    + rewrite (remove_from_cart_miss _ _ _ _ H2 (get_del_same _ _)). cbn [snd].
      destruct (Z.leb_spec stored (q1 + q2)); [reflexivity | lia].
    + rewrite (remove_from_cart_hit _ _ _ _ _ H2 (get_set_same _ _ _)). cbn [snd].
      unfold after_removal.
      destruct (Z.leb_spec (stored - q1) q2), (Z.leb_spec stored (q1 + q2));
        try lia.
      * apply del_set.
      * rewrite set_set. f_equal. lia.
  - rewrite (remove_from_cart_miss _ _ _ _ H1 G). cbn [snd].
    rewrite (remove_from_cart_miss _ _ _ _ H2 G).
    now rewrite (remove_from_cart_miss _ _ _ _ H12 G).
Qed.

Lemma X6_removes_add_up_witness :
  0 < 5 /\ 0 < 4
  /\ snd (remove_from_cart
            (snd (remove_from_cart [("milk", 2); ("eggs", 12)]
                    (mkRequest "eggs" 5 "remove")))
            (mkRequest "eggs" 4 "remove"))
     = [("milk", 2); ("eggs", 3)].
Proof.
  split; [lia|]. split; [lia|].
  exact (X6_removes_add_up [("milk", 2); ("eggs", 12)] "eggs" "remove" 5 4
           eq_refl eq_refl).
Defined.

(** X7: the endpoints do not tell a name from its lower-cased or trimmed
    form: an add, or a remove, of any of them leaves the same store. *)
Theorem X7_endpoints_ignore_case_and_margins :
  forall (cart : Dict.t) (name a : string) (q : Z),
    snd (add_to_cart cart (mkRequest (lower name) q a))
    = snd (add_to_cart cart (mkRequest name q a))
    /\ snd (add_to_cart cart (mkRequest (strip name) q a))
       = snd (add_to_cart cart (mkRequest name q a))
    /\ snd (remove_from_cart cart (mkRequest (lower name) q a))
       = snd (remove_from_cart cart (mkRequest name q a))
    /\ snd (remove_from_cart cart (mkRequest (strip name) q a))
       = snd (remove_from_cart cart (mkRequest name q a)).
Proof.
  intros cart name a q.
  assert (E1 : strip (lower (lower name)) = strip (lower name))
    by now rewrite lower_idem.
  assert (E2 : strip (lower (strip name)) = strip (lower name))
    by now rewrite lower_strip, strip_idem.
  unfold add_to_cart, remove_from_cart. simpl. rewrite E1, E2.
  destruct (q <=? 0); simpl; [repeat split|].
  destruct (Dict.get (strip (lower name)) cart) as [stored|]; simpl;
    [destruct (stored <=? q)|]; repeat split.
Qed.

End EndpointProperties.


(** ** The client and the agent tools *)

Section ClientProperties.
Import PyStr Frontend VoiceAgent Session.

Lemma rstrip_snoc_stripped p s c :
  p c = true -> rstrip_by p (s ++ String c "") = rstrip_by p s.
Proof.
  intros Ec. induction s as [|d s IH]; simpl.
  - now rewrite Ec.
  - now rewrite IH.
Qed.

Lemma rstrip_s_snoc (s : string) : rstrip_s (s ++ "s") = rstrip_s s.
Proof. now apply rstrip_snoc_stripped. Qed.

(** X8: the four patterns of the smart-matching loop come to the last one:
    two names match exactly when they are equal once their trailing [s]
    are stripped.  Matching is therefore reflexive, symmetric and
    transitive, and a name matches its own plural. *)
Theorem X8_matching_is_stem_equality :
  forall (a b : string),
    matches a b = String.eqb (rstrip_s a) (rstrip_s b)
    /\ matches a a = true
    /\ matches a b = matches b a
    /\ matches a (a ++ "s") = true
    /\ forall c, matches a b = true -> matches b c = true -> matches a c = true.
Proof.
  assert (E : forall a b, matches a b = String.eqb (rstrip_s a) (rstrip_s b)).
  { intros a b. unfold matches.
    destruct (String.eqb (rstrip_s a) (rstrip_s b)) eqn:D;
      [now rewrite orb_true_r|].
    rewrite orb_false_r. apply String.eqb_neq in D.
    destruct (String.eqb_spec a b) as [->|_]; [congruence|].
    destruct (String.eqb_spec (a ++ "s") b) as [<-|_];
      [now rewrite rstrip_s_snoc in D|].
    destruct (String.eqb_spec a (b ++ "s")) as [->|_];
      [now rewrite rstrip_s_snoc in D|].
    reflexivity. }
  intros a b. split; [apply E|]. rewrite !E.
  split; [apply String.eqb_refl|].
  split; [apply String.eqb_sym|].
  split; [rewrite rstrip_s_snoc; apply String.eqb_refl|].
  intros c. rewrite !E, !String.eqb_eq. congruence.
Qed.

Lemma X8_matching_witness :
  matches "glass" "gla" = true /\ matches "gla" "glasses" = false
  /\ matches "glass" "glasss" = true.
Proof.
  assert (H1 : matches "glass" "gla" = true)
    by (rewrite (proj1 (X8_matching_is_stem_equality "glass" "gla")); reflexivity).
  assert (H2 : matches "gla" "glasss" = true)
    by (rewrite (proj1 (X8_matching_is_stem_equality "gla" "glasss")); reflexivity).
  split; [exact H1|]. split; [reflexivity|].
  apply (proj2 (proj2 (proj2 (proj2 (X8_matching_is_stem_equality "glass" "gla"))))
           "glasss" H1 H2).
Defined.

Lemma matches_stem (a b : string) :
  matches a b = true <-> rstrip_s a = rstrip_s b.
Proof.
  unfold matches. rewrite !orb_true_iff, !String.eqb_eq. split.
  - intros [[[->| <-]| ->]|H]; auto; now rewrite rstrip_s_snoc.
  - auto.
Qed.

(** What [grocery_api_remove_item] comes to: it reports failure and leaves
    the store alone, or it reports success and has removed from one stored
    key, the looked-up name itself or the first key its loop matched. *)
Lemma grocery_api_remove_item_outcome (cart : Dict.t) (raw : string) (q : Z) :
  (result_success (fst (grocery_api_remove_item cart raw q)) = false
   /\ snd (grocery_api_remove_item cart raw q) = cart)
  \/ (0 < q
      /\ exists k stored,
           Dict.get (strip (lower k)) cart = Some stored
           /\ matches (strip (lower raw)) (strip (lower k)) = true
           /\ result_success (fst (grocery_api_remove_item cart raw q)) = true
           /\ snd (grocery_api_remove_item cart raw q)
              = after_removal (strip (lower k)) stored q cart).
Proof.
  destruct (Z.leb_spec q 0) as [Hq|Hq].
  - left. rewrite (grocery_api_remove_item_reject _ _ _ Hq). auto.
  - destruct (Dict.get (strip (lower raw)) cart) as [stored|] eqn:G.
    + right. split; [exact Hq|]. exists raw, stored.
      rewrite (grocery_api_remove_item_hit _ _ _ _ Hq G).
      repeat split; auto. apply matches_stem. reflexivity.
    + rewrite (grocery_api_remove_item_miss _ _ _ Hq G).
      destruct (smart_matching_cases cart cart (strip (lower raw)) q Hq)
        as [[E _]|(l1 & k & v & l2 & body & st & _ & _ & M & E1 & E2)].
      * left. rewrite E. auto.
      * rewrite E2.
        destruct (Dict.get (strip (lower k)) cart) as [stored|] eqn:Gk.
        -- right. split; [exact Hq|]. exists k, stored.
           rewrite (remove_from_cart_hit _ _ _ _ _ Hq Gk) in E1.
           injection E1 as <- <-. auto.
        -- left. rewrite (remove_from_cart_miss _ _ _ _ Hq Gk) in E1.
           injection E1 as <- <-. auto.
Qed.

Lemma get_after_removal_other k stored q (d : Dict.t) other :
  other <> k -> Dict.get other (after_removal k stored q d) = Dict.get other d.
Proof.
  intros N. unfold after_removal.
  destruct (stored <=? q); [now apply get_del_other | now apply get_set_other].
Qed.

Lemma In_keys_after_removal k stored q (d : Dict.t) k' :
  Dict.get k d = Some stored ->
  In k' (Dict.keys (after_removal k stored q d)) -> In k' (Dict.keys d).
Proof.
  intros G. unfold after_removal. destruct (stored <=? q); intros I.
  - apply In_keys_del in I. tauto.
  - apply In_keys_set in I. destruct I as [->|I]; [|exact I].
    exact (get_Some_In _ _ _ G).
Qed.

(** X9: a remove through the client alters at most one key of the store,
    brings in no key, and raises no quantity. *)
Theorem X9_client_remove_is_local :
  forall (cart : Dict.t) (raw : string) (q : Z),
    (exists k, forall other,
          other <> k ->
          Dict.get other (snd (grocery_api_remove_item cart raw q))
          = Dict.get other cart)
    /\ (forall k, In k (Dict.keys (snd (grocery_api_remove_item cart raw q))) ->
                  In k (Dict.keys cart))
    /\ (forall k v',
           Dict.get k (snd (grocery_api_remove_item cart raw q)) = Some v' ->
           exists v, Dict.get k cart = Some v /\ v' <= v).
Proof.
  intros cart raw q.
  destruct (grocery_api_remove_item_outcome cart raw q)
    as [[_ ->]|(Hq & k & stored & G & _ & _ & ->)].
  - split; [exists ""; auto|]. split; [auto|].
    intros k v' E. exists v'. split; [exact E | lia].
  - split; [|split].
    + exists (strip (lower k)). intros other N. now apply get_after_removal_other.
    + intros k'. now apply In_keys_after_removal.
    + intros k' v' E.
      destruct (string_dec k' (strip (lower k))) as [->|N].
      * exists stored. split; [exact G|]. unfold after_removal in E.
        destruct (stored <=? q).
        -- rewrite get_del_same in E. discriminate E.
        -- rewrite get_set_same in E. injection E as <-. lia.
      * rewrite (get_after_removal_other _ _ _ _ _ N) in E.
        exists v'. split; [exact E | lia].
Qed.

Lemma X9_client_remove_is_local_witness :
  Dict.get "bananas" (snd (grocery_api_remove_item
                             [("milk", 1); ("bananas", 5)] "Banana" 2)) = Some 3
  /\ exists v, Dict.get "bananas" [("milk", 1); ("bananas", 5)] = Some v /\ 3 <= v.
Proof.
  split; [reflexivity|].
  exact (proj2 (proj2 (X9_client_remove_is_local
                         [("milk", 1); ("bananas", 5)] "Banana" 2))
           "bananas" 3 eq_refl).
Defined.

(** X10: a client call that reports failure has left the store as it
    was; an add through the client reports success exactly when the
    quantity is positive. *)
Theorem X10_failure_leaves_the_store :
  forall (cart : Dict.t) (raw : string) (q : Z),
    (result_success (fst (grocery_api_remove_item cart raw q)) = false ->
     snd (grocery_api_remove_item cart raw q) = cart)
    /\ (result_success (fst (grocery_api_add_item cart raw q)) = false ->
        snd (grocery_api_add_item cart raw q) = cart)
    /\ (result_success (fst (grocery_api_add_item cart raw q)) = true <-> 0 < q).
Proof.
  intros cart raw q. split; [|split].
  - destruct (grocery_api_remove_item_outcome cart raw q)
      as [[_ E]|(_ & k & stored & _ & _ & S & _)]; [auto | congruence].
  - destruct (Z.leb_spec q 0) as [Hq|Hq].
    + now rewrite (grocery_api_add_item_reject _ _ _ Hq).
    + unfold grocery_api_add_item. rewrite (add_to_cart_accept _ _ _ _ Hq).
      discriminate.
  - destruct (Z.leb_spec q 0) as [Hq|Hq].
    + rewrite (grocery_api_add_item_reject _ _ _ Hq). simpl. split; [discriminate|lia].
    + unfold grocery_api_add_item. rewrite (add_to_cart_accept _ _ _ _ Hq).
      simpl. tauto.
Qed.

Lemma X10_failure_witness :
  result_success (fst (grocery_api_remove_item [("milk", 1)] "kiwi" 3)) = false
  /\ snd (grocery_api_remove_item [("milk", 1)] "kiwi" 3) = [("milk", 1)].
Proof.
  split; [reflexivity|].
  exact (proj1 (X10_failure_leaves_the_store [("milk", 1)] "kiwi" 3) eq_refl).
Defined.

(** With canonical keys, a stored key with the stem of the name is enough
    for the client's remove to succeed. *)
Lemma grocery_api_remove_item_succeeds (cart : Dict.t) (raw k : string) (q : Z) :
  canonical_keys cart -> 0 < q ->
  In k (Dict.keys cart) ->
  rstrip_s (strip (lower raw)) = rstrip_s k ->
  result_success (fst (grocery_api_remove_item cart raw q)) = true.
Proof.
  intros C Hq I St.
  assert (K : forall k', In k' (Dict.keys cart) -> strip (lower k') = k')
    by (intros k' I'; exact (proj1 (Forall_forall _ _) C k' I')).
  destruct (Dict.get (strip (lower raw)) cart) as [stored|] eqn:G.
  - now rewrite (grocery_api_remove_item_hit _ _ _ _ Hq G).
  - rewrite (grocery_api_remove_item_miss _ _ _ Hq G).
    destruct (smart_matching_cases cart cart (strip (lower raw)) q Hq)
      as [[_ N]|(l1 & k1 & v1 & l2 & body & st & El & _ & _ & E1 & E2)].
    + specialize (N k I). rewrite (K k I) in N.
      apply matches_stem in St. congruence.
    + rewrite E2. simpl.
      assert (I1 : In k1 (Dict.keys cart)).
      { rewrite El. unfold Dict.keys. rewrite map_app. apply in_or_app.
        right. now left. }
      destruct (Dict.get (strip (lower k1)) cart) as [stored|] eqn:G1.
      * rewrite (remove_from_cart_hit _ _ _ _ _ Hq G1) in E1.
        now injection E1 as <- _.
      * rewrite (K k1 I1) in G1. apply get_None_iff in G1. tauto.
Qed.

(** X11: in a store with canonical keys, a remove through the client
    succeeds exactly when the quantity is positive and some stored key has
    the stem of the lower-cased, trimmed name. *)
Theorem X11_client_remove_succeeds_iff :
  forall (cart : Dict.t) (raw : string) (q : Z),
    canonical_keys cart ->
    (result_success (fst (grocery_api_remove_item cart raw q)) = true
     <-> 0 < q /\ exists k, In k (Dict.keys cart)
                            /\ rstrip_s (strip (lower raw)) = rstrip_s k).
Proof.
  intros cart raw q C. split.
  - destruct (grocery_api_remove_item_outcome cart raw q)
      as [[F _]|(Hq & k & stored & G & M & _ & _)]; [congruence|].
    intros _. split; [exact Hq|]. exists (strip (lower k)).
    split; [exact (get_Some_In _ _ _ G) | now apply matches_stem].
  - intros (Hq & k & I & St).
    exact (grocery_api_remove_item_succeeds cart raw k q C Hq I St).
Qed.

Lemma X11_client_remove_witness :
  canonical_keys [("milk", 1); ("glass", 4)]
  /\ (result_success (fst (grocery_api_remove_item
                             [("milk", 1); ("glass", 4)] " Glasss" 1)) = true
      <-> 0 < 1 /\ exists k, In k (Dict.keys [("milk", 1); ("glass", 4)])
                             /\ rstrip_s (strip (lower " Glasss")) = rstrip_s k).
Proof.
  assert (C : canonical_keys [("milk", 1); ("glass", 4)])
    by (repeat (constructor; [reflexivity|]); constructor).
  split; [exact C|].
  exact (X11_client_remove_succeeds_iff [("milk", 1); ("glass", 4)] " Glasss" 1 C).
Defined.

Lemma validate_accepts (q : Z) (name : string) :
  1 <= q -> strip name <> "" ->
  validate q name = inr (mkCartItem q (strip name)).
Proof.
  intros Hq Hn. unfold validate.
  destruct (Z.ltb_spec q 1); [lia|].
  destruct (String.eqb_spec name "") as [->|_]; [now elim Hn|].
  destruct (strip name) as [|c s]; [now elim Hn|]. reflexivity.
Qed.

Lemma final_name_strip (name : string) : final_name (strip name) = final_name name.
Proof.
  rewrite !final_name_cases. unfold normalized_name.
  now rewrite lower_strip, strip_idem.
Qed.

Lemma grocery_api_add_item_accept (cart : Dict.t) (raw : string) (q : Z) :
  0 < q ->
  let key := final_name raw in
  let cart' := Dict.set key (Dict.quantity_of key cart + q) cart in
  grocery_api_add_item cart raw q
  = (ApiJson (mkResponse true
                ("Successfully added " ++ str_of_int q ++ " " ++ key ++ " to cart")
                (snapshot cart') (Dict.sum_values cart')), cart').
Proof.
  intros Hq. unfold grocery_api_add_item.
  rewrite (add_to_cart_accept _ _ _ _ Hq). cbv zeta.
  now rewrite (final_name_canonical raw).
Qed.

(** X12: a tool call to add with a quantity of at least 1 and a name that
    is not blank always succeeds: the reply confirms it, and the store
    holds the quantity, added to what was there, under the normalised
    plural name. *)
Theorem X12_tool_add_succeeds :
  forall (cart : Dict.t) (q : Z) (name : string),
    1 <= q -> strip name <> "" ->
    GroceryAgent.add_to_cart cart q name
    = ("Perfect! I've successfully added " ++ str_of_int q ++ " " ++ strip name
       ++ " to your cart. Is there anything else you'd like to add?",
       Dict.set (final_name name) (Dict.quantity_of (final_name name) cart + q) cart)
    /\ Dict.get (final_name name) (snd (GroceryAgent.add_to_cart cart q name))
       = Some (Dict.quantity_of (final_name name) cart + q).
Proof.
  intros cart q name Hq Hn.
  assert (E : GroceryAgent.add_to_cart cart q name
              = ("Perfect! I've successfully added " ++ str_of_int q ++ " "
                 ++ strip name
                 ++ " to your cart. Is there anything else you'd like to add?",
                 Dict.set (final_name name)
                   (Dict.quantity_of (final_name name) cart + q) cart)).
  { unfold GroceryAgent.add_to_cart. rewrite (validate_accepts _ _ Hq Hn).
    cbn [ci_item_name ci_quantity].
    rewrite grocery_api_add_item_accept by lia. cbv zeta.
    now rewrite final_name_strip. }
  split; [exact E|]. rewrite E. apply get_set_same.
Qed.

Lemma X12_tool_add_witness :
  1 <= 3 /\ strip " Apple " <> ""
  /\ GroceryAgent.add_to_cart [("apples", 2)] 3 " Apple "
     = ("Perfect! I've successfully added 3 Apple to your cart. Is there anything else you'd like to add?",
        [("apples", 5)]).
Proof.
  assert (N : strip " Apple " <> "") by discriminate.
  assert (L : 1 <= 3) by lia.
  split; [exact L|]. split; [exact N|].
  exact (proj1 (X12_tool_add_succeeds [("apples", 2)] 3 " Apple " L N)).
Defined.

Lemma tool_remove_store (cart : Dict.t) (q : Z) (name : string) :
  snd (GroceryAgent.remove_from_cart cart q name) = cart
  \/ (validate q name = inr (mkCartItem q (strip name))
      /\ snd (GroceryAgent.remove_from_cart cart q name)
         = snd (grocery_api_remove_item cart (strip name) q)).
Proof.
  unfold GroceryAgent.remove_from_cart.
  destruct (validate q name) as [e|cart_item] eqn:V; [now left|]. right.
  assert (E : cart_item = mkCartItem q (strip name)).
  { unfold validate in V. destruct (q <? 1); [discriminate V|].
    destruct (_ || _); [discriminate V | now injection V as <-]. }
  subst cart_item. split; [reflexivity|]. cbn [ci_item_name ci_quantity].
  destruct (grocery_api_remove_item cart (strip name) q) as [result st].
  now destruct (result_success result).
Qed.

Lemma tool_add_store (cart : Dict.t) (q : Z) (name : string) :
  snd (GroceryAgent.add_to_cart cart q name) = cart
  \/ exists v, snd (GroceryAgent.add_to_cart cart q name)
               = Dict.set (final_name name) v cart.
Proof.
  unfold GroceryAgent.add_to_cart.
  destruct (validate q name) as [e|cart_item] eqn:V; [now left|]. right.
  unfold validate in V. destruct (Z.ltb_spec q 1); [discriminate V|].
  destruct (_ || _); [discriminate V|]. injection V as <-.
  cbn [ci_item_name ci_quantity].
  rewrite grocery_api_add_item_accept by lia. cbv zeta.
  rewrite final_name_strip. eexists. reflexivity.
Qed.

Lemma tool_serve_keys (cart : Dict.t) (c : tool_call) (k : string) :
  In k (Dict.keys (snd (tool_serve cart c))) ->
  In k (Dict.keys cart) \/ exists q name, c = ToolAdd q name /\ k = final_name name.
Proof.
  destruct c as [q name|q name]; simpl; intros I.
  - destruct (tool_add_store cart q name) as [E|[v E]]; rewrite E in I; [now left|].
    apply In_keys_set in I. destruct I as [->|I]; eauto.
  - left. destruct (tool_remove_store cart q name) as [E|[_ E]]; rewrite E in I;
      [exact I|].
    destruct (grocery_api_remove_item_outcome cart (strip name) q)
      as [[_ E']|(_ & k' & stored & G & _ & _ & E')]; rewrite E' in I; [exact I|].
    exact (In_keys_after_removal _ _ _ _ _ G I).
Qed.

(** X13: in a store that only the agent's tools have written to, from the
    empty store, every key ends in [s], is lower-case and trimmed, and is
    not empty. *)
Theorem X13_tool_keys_are_plural :
  forall (cs : list tool_call) (k : string),
    In k (Dict.keys (tool_run initial_cart cs)) ->
    endswith k "s" = true /\ strip (lower k) = k /\ k <> "".
Proof.
  intros cs.
  enough (H : forall cart,
             (forall k, In k (Dict.keys cart) ->
                        endswith k "s" = true /\ strip (lower k) = k) ->
             forall k, In k (Dict.keys (tool_run cart cs)) ->
                       endswith k "s" = true /\ strip (lower k) = k).
  { intros k I. destruct (H initial_cart (fun k (F : In k []) => match F with end) k I)
      as [E C].
    repeat split; auto. intros ->. discriminate E. }
  induction cs as [|c cs IH]; intros cart P; simpl; [exact P|].
  apply IH. intros k I.
  destruct (tool_serve_keys _ _ _ I) as [J|(q & name & _ & ->)]; [now apply P|].
  split; [apply final_name_endswith_s | apply final_name_canonical].
Qed.

Lemma X13_tool_keys_witness :
  In "apples" (Dict.keys (tool_run initial_cart
                            [ToolAdd 2 "Milk"; ToolAdd 3 " Apple ";
                             ToolRemove 5 "milk"; ToolAdd 0 "kiwi"]))
  /\ endswith "apples" "s" = true.
Proof.
  assert (I : In "apples" (Dict.keys (tool_run initial_cart
                            [ToolAdd 2 "Milk"; ToolAdd 3 " Apple ";
                             ToolRemove 5 "milk"; ToolAdd 0 "kiwi"])))
    by (left; reflexivity).
  split; [exact I|].
  exact (proj1 (X13_tool_keys_are_plural _ "apples" I)).
Defined.

(** X14: what a tool call has added can be removed under the same name:
    in a store with canonical keys, after a valid call to add, a call to
    remove with the same name and any quantity of at least 1 is answered
    with the confirmation of a removal. *)
Theorem X14_added_item_is_removable :
  forall (cart : Dict.t) (q1 q2 : Z) (name : string),
    canonical_keys cart -> 1 <= q1 -> 1 <= q2 -> strip name <> "" ->
    fst (GroceryAgent.remove_from_cart
           (snd (GroceryAgent.add_to_cart cart q1 name)) q2 name)
    = "Done! I've successfully removed " ++ str_of_int q2 ++ " " ++ strip name
      ++ " from your cart. Anything else you'd like me to help with?".
Proof.
  intros cart q1 q2 name C H1 H2 Hn.
  unfold GroceryAgent.add_to_cart. rewrite (validate_accepts _ _ H1 Hn).
  cbn [ci_item_name ci_quantity].
  rewrite grocery_api_add_item_accept by lia. cbv zeta. cbn [snd result_success success].
  rewrite final_name_strip.
  set (cart1 := Dict.set (final_name name) _ cart).
  unfold GroceryAgent.remove_from_cart. rewrite (validate_accepts _ _ H2 Hn).
  cbn [ci_item_name ci_quantity].
  assert (S : result_success (fst (grocery_api_remove_item cart1 (strip name) q2))
              = true).
  { apply (grocery_api_remove_item_succeeds cart1 (strip name) (final_name name)).
    - apply Forall_forall. intros k I. apply In_keys_set in I.
      destruct I as [->|I]; [apply final_name_canonical|].
      exact (proj1 (Forall_forall _ _) C k I).
    - lia.
    - apply (get_Some_In _ (Dict.quantity_of (final_name name) cart + q1)).
      apply get_set_same.
    - rewrite lower_strip, strip_idem, final_name_cases. unfold normalized_name.
      destruct (endswith (strip (lower name)) "s"); [reflexivity|].
      now rewrite rstrip_s_snoc. }
  destruct (grocery_api_remove_item cart1 (strip name) q2) as [result st].
  simpl in S. now rewrite S.
Qed.

Lemma X14_added_item_witness :
  canonical_keys [("milk", 1)] /\ 1 <= 2 /\ 1 <= 1 /\ strip "Banana" <> ""
  /\ fst (GroceryAgent.remove_from_cart
            (snd (GroceryAgent.add_to_cart [("milk", 1)] 2 "Banana")) 1 "Banana")
     = "Done! I've successfully removed 1 Banana from your cart. Anything else you'd like me to help with?".
Proof.
  assert (C : canonical_keys [("milk", 1)])
    by (repeat (constructor; [reflexivity|]); constructor).
  assert (L2 : 1 <= 2) by lia.
  assert (L1 : 1 <= 1) by lia.
  assert (N : strip "Banana" <> "") by discriminate.
  split; [exact C|]. split; [exact L2|]. split; [exact L1|]. split; [exact N|].
  exact (X14_added_item_is_removable [("milk", 1)] 2 1 "Banana" C L2 L1 N).
Defined.

(** X15: the normaliser sends a name, its lower-cased form, its trimmed
    form and its lower-cased, trimmed form to the same key. *)
Theorem X15_normaliser_identifies_variants :
  forall (raw : string),
    final_name (lower raw) = final_name raw
    /\ final_name (strip raw) = final_name raw
    /\ final_name (strip (lower raw)) = final_name raw.
Proof.
  intros raw.
  assert (L : final_name (lower raw) = final_name raw).
  { rewrite !final_name_cases. unfold normalized_name. now rewrite lower_idem. }
  split; [exact L|]. split; [apply final_name_strip|].
  now rewrite final_name_strip.
Qed.

(** X16: for names whose characters all lie in U+0000..U+00FF, the range
    of this model, where [lower()] acts character by character: a
    trimmed name whose normalised form does not end in [s], and that name
    with [s] appended, are given the same key, the normalised name
    followed by [s].  (Beyond that range [lower()] depends on context and
    the statement is not made.) *)
Theorem X16_singular_and_plural_share_a_key :
  forall (raw : string),
    endswith (normalized_name raw) "s" = false ->
    final_name (strip raw ++ "s") = final_name raw
    /\ final_name raw = normalized_name raw ++ "s".
Proof.
  intros raw E.
  assert (N : normalized_name (strip raw ++ "s") = normalized_name raw ++ "s").
  { unfold normalized_name.
    rewrite lower_app, lower_strip. apply strip_snoc_s. }
  rewrite (final_name_cases (strip raw ++ "s")), N.
  rewrite (final_name_cases raw), E.
  change (String "s" "") with "s". now rewrite endswith_snoc.
Qed.

Lemma X16_singular_and_plural_witness :
  endswith (normalized_name " Apple ") "s" = false
  /\ final_name "Apples" = final_name " Apple ".
Proof.
  assert (E : endswith (normalized_name " Apple ") "s" = false) by reflexivity.
  split; [exact E|].
  exact (proj1 (X16_singular_and_plural_share_a_key " Apple " E)).
Defined.

End ClientProperties.

